(** * HotkeyScheduler: the hotkey polling loop of DolphinQt2

    A shallow embedding of [Source/Core/DolphinQt2/HotkeyScheduler.cpp].

    One iteration of the loop of [HotkeyScheduler::Run] is a function from
    what the iteration observes of the outside world (an [Env]) and the
    mutable state it owns or has write access to (a [State]) to the new
    state together with the ordered list of outward calls it makes (its
    trace of [Effect]s: Qt signals, calls into Core, the renderer, ...).

    Conventions of the embedding
    - C++ [int] values are [Z]; every value the code computes on stays far
      inside the 32-bit range for the inputs the theorems consider, and
      signed overflow is undefined in C++ anyway.
    - C++ [double] values are Rocq's primitive binary64 floats.
    - The configuration store ([Config::Get] / [Config::SetCurrent],
      [SConfig::GetInstance()]) is read and written sequentially: what other
      threads do to it between two statements is outside the model. *)

From Stdlib Require Import ZArith List Bool Lia String.
From Stdlib Require Import Floats.PrimFloat.
Import ListNotations.

Local Open Scope Z_scope.

(** ** Identifiers declared in headers *)

(** The hotkey ids of [Core/HotkeyManager.h] that the scheduler queries.
    The enumeration itself is not part of the sources at hand, so the ids
    are kept symbolic.  The four blocks of save-state ids are addressed in
    the code as [HK_LOAD_STATE_SLOT_1 + i]; here [HK_LOAD_STATE_SLOT_1 i]
    stands for that sum. *)
Inductive Hotkey : Type :=
| HK_OPEN | HK_EJECT_DISC | HK_CHANGE_DISC | HK_FULLSCREEN | HK_REFRESH_LIST
| HK_PLAY_PAUSE | HK_STOP | HK_RESET | HK_SCREENSHOT | HK_EXIT
| HK_FRAME_ADVANCE | HK_FRAME_ADVANCE_INCREASE_SPEED
| HK_FRAME_ADVANCE_DECREASE_SPEED | HK_FRAME_ADVANCE_RESET_SPEED
| HK_START_RECORDING | HK_EXPORT_RECORDING | HK_READ_ONLY_MODE
| HK_TRIGGER_SYNC_BUTTON
| HK_WIIMOTE1_CONNECT | HK_WIIMOTE2_CONNECT | HK_WIIMOTE3_CONNECT
| HK_WIIMOTE4_CONNECT | HK_BALANCEBOARD_CONNECT
| HK_VOLUME_DOWN | HK_VOLUME_UP | HK_VOLUME_TOGGLE_MUTE
| HK_INCREASE_IR | HK_DECREASE_IR | HK_TOGGLE_CROP | HK_TOGGLE_AR
| HK_TOGGLE_EFBCOPIES | HK_TOGGLE_XFBCOPIES | HK_TOGGLE_IMMEDIATE_XFB
| HK_TOGGLE_FOG | HK_TOGGLE_DUMPTEXTURES | HK_TOGGLE_TEXTURES
| HK_TOGGLE_THROTTLE
| HK_DECREASE_EMULATION_SPEED | HK_INCREASE_EMULATION_SPEED
| HK_SAVE_STATE_SLOT_SELECTED | HK_LOAD_STATE_SLOT_SELECTED
| HK_TOGGLE_STEREO_SBS | HK_TOGGLE_STEREO_TAB | HK_TOGGLE_STEREO_ANAGLYPH
| HK_TOGGLE_STEREO_3DVISION
| HK_DECREASE_DEPTH | HK_INCREASE_DEPTH
| HK_DECREASE_CONVERGENCE | HK_INCREASE_CONVERGENCE
| HK_FREELOOK_DECREASE_SPEED | HK_FREELOOK_INCREASE_SPEED
| HK_FREELOOK_RESET_SPEED | HK_FREELOOK_UP | HK_FREELOOK_DOWN
| HK_FREELOOK_LEFT | HK_FREELOOK_RIGHT | HK_FREELOOK_ZOOM_IN
| HK_FREELOOK_ZOOM_OUT | HK_FREELOOK_RESET
| HK_LOAD_STATE_SLOT_1 (i : nat) | HK_SAVE_STATE_SLOT_1 (i : nat)
| HK_LOAD_LAST_STATE_1 (i : nat) | HK_SELECT_STATE_SLOT_1 (i : nat)
| HK_SAVE_FIRST_STATE | HK_UNDO_LOAD_STATE | HK_UNDO_SAVE_STATE
| HK_STEP | HK_STEP_OVER | HK_STEP_OUT | HK_SKIP | HK_SHOW_PC | HK_SET_PC
| HK_BP_TOGGLE | HK_BP_ADD.

Definition Hotkey_eq_dec (a b : Hotkey) : {a = b} + {a <> b}.
Proof. decide equality; apply Nat.eq_dec. Defined.

(** [Core::State], as far as the scheduler distinguishes its values. *)
Inductive CoreState : Type := Uninitialized | Paused | Running | Stopping.

Definition CoreState_eqb (a b : CoreState) : bool :=
  match a, b with
  | Uninitialized, Uninitialized | Paused, Paused
  | Running, Running | Stopping, Stopping => true
  | _, _ => false
  end.

Inductive StereoMode : Type := Off | SBS | TAB | Anaglyph | Nvidia3DVision.

Definition StereoMode_eqb (a b : StereoMode) : bool :=
  match a, b with
  | Off, Off | SBS, SBS | TAB, TAB | Anaglyph, Anaglyph
  | Nvidia3DVision, Nvidia3DVision => true
  | _, _ => false
  end.

Inductive OSDMessage : Type :=
| VolumeChanged | IRChanged | ARToggled | EFBCopyToggled | XFBChanged
| FogToggled | SpeedChanged.

(** Modelled from the spec: the header that declares the signals of
    [HotkeyScheduler] is not among the sources.  The constructors are the
    signal names the code emits, together with [SetPC], which the command
    list of the specification names next to [Skip]. *)
Inductive Signal : Type :=
| Open | EjectDisc | ChangeDisc | FullScreenHotkey | RefreshGameListHotkey
| TogglePauseHotkey | StopHotkey | ResetHotkey | ScreenShotHotkey
| ExitHotkey | StartRecording | ExportRecording | ToggleReadOnlyMode
| ConnectWiiRemote (id : Z)
| StateSaveSlotHotkey | StateLoadSlotHotkey
| StateLoadSlot (n : Z) | StateSaveSlot (n : Z)
| StateLoadLastSaved (n : Z) | SetStateSlotHotkey (n : Z)
| StateSaveOldest | StateLoadUndo | StateSaveUndo
| Step | StepOver | StepOut | Skip | ShowPC | SetPC
| ToggleBreakpoint | AddBreakpoint.

(** The free-look speed is a C++ [float]; its binary32 arithmetic is not
    interpreted: the value is the term of the operations applied so far. *)
Inductive FlSpeed : Type :=
| FlOne                      (* 1.0 *)
| FlDiv (x : FlSpeed)        (* x / 1.1f *)
| FlMul (x : FlSpeed).       (* x * 1.1f *)

Inductive FlArg : Type :=
| FlZero | FlPlus (v : FlSpeed) | FlMinus (v : FlSpeed).

(** Every outward call of one loop iteration, in program order. *)
Inductive Effect : Type :=
| Emit (sig : Signal)
| SleepCurrentThread (ms : Z)
| UpdateInput
| GetStatus
| DoFrameStep
| UpdateSyncButtonState (pressed : bool)
| ShowOSDMessage (m : OSDMessage)
| DecreaseVolume (n : Z)
| IncreaseVolume (n : Z)
| ToggleMuteVolume
| SetIsThrottlerTempDisabled (b : bool)
| TranslateView (x y z : FlArg)
| ResetView.

(** ** What one iteration observes *)

(** [IsHotkey id held] is [HotkeyManagerEmu::IsPressed(id, held)].  The
    hotkey manager is an external collaborator whose code is not among the
    sources; as in the interface the specification gives for it
    ([Sample(actionId, holdMode) -> bool]), within one iteration its answer
    for a given id and mode is one sampled boolean.  The same holds
    for [Core::GetState()], [Core::IsRunningAndStarted()], the [SConfig]
    switches and the presence of a renderer.  [bt_device] says whether the
    emulated Bluetooth device was found.  [EFB_SCALE_AUTO_INTEGRAL] is a
    constant of VideoCommon whose declaration is not among the sources. *)
Record Env : Type := mkEnv {
  m_stop_requested : bool;
  IsEnabled : bool;
  GetState : CoreState;
  IsRunningAndStarted : bool;
  IsHotkey : Hotkey -> bool -> bool;
  m_bt_passthrough_enabled : bool;
  bt_device : bool;
  bEnableDebugging : bool;
  bWii : bool;
  g_renderer : bool;
  EFB_SCALE_AUTO_INTEGRAL : Z
}.

(** ** The mutable state *)

(** Modelled from the spec: the declaration of [SConfig::m_EmulationSpeed]
    is not among the sources; the specification's NumericAdjustable gives
    its current value as an f64, and the code computes on it in [double]. *)
Definition EmulationSpeed : Type := float.

(** The function-local statics of [HandleFrameskipHotkeys] and of [Run],
    and the configuration entries the scheduler writes. *)
Record State : Type := mkState {
  frame_step_count : Z;
  frame_step_delay : Z;
  frame_step_delay_count : Z;
  frame_step_hold : bool;
  fl_speed : FlSpeed;
  GFX_EFB_SCALE : Z;
  GFX_CROP : bool;
  GFX_ASPECT_RATIO : Z;
  GFX_HACK_SKIP_EFB_COPY_TO_RAM : bool;
  GFX_HACK_SKIP_XFB_COPY_TO_RAM : bool;
  GFX_HACK_IMMEDIATE_XFB : bool;
  GFX_DISABLE_FOG : bool;
  GFX_DUMP_TEXTURES : bool;
  GFX_HIRES_TEXTURES : bool;
  m_EmulationSpeed : EmulationSpeed;
  GFX_STEREO_MODE : StereoMode;
  GFX_ENHANCE_POST_SHADER : string;
  GFX_STEREO_DEPTH : Z;
  GFX_STEREO_CONVERGENCE : Z
}.

Module Set_.
Definition frame_step_count v (s : State) : State :=
  let 'mkState _ a2 a3 a4 a5 a6 a7 a8 a9 a10 a11 a12 a13 a14 a15 a16 a17 a18 a19 := s in
  mkState v a2 a3 a4 a5 a6 a7 a8 a9 a10 a11 a12 a13 a14 a15 a16 a17 a18 a19.
Definition frame_step_delay v (s : State) : State :=
  let 'mkState a1 _ a3 a4 a5 a6 a7 a8 a9 a10 a11 a12 a13 a14 a15 a16 a17 a18 a19 := s in
  mkState a1 v a3 a4 a5 a6 a7 a8 a9 a10 a11 a12 a13 a14 a15 a16 a17 a18 a19.
Definition frame_step_delay_count v (s : State) : State :=
  let 'mkState a1 a2 _ a4 a5 a6 a7 a8 a9 a10 a11 a12 a13 a14 a15 a16 a17 a18 a19 := s in
  mkState a1 a2 v a4 a5 a6 a7 a8 a9 a10 a11 a12 a13 a14 a15 a16 a17 a18 a19.
Definition frame_step_hold v (s : State) : State :=
  let 'mkState a1 a2 a3 _ a5 a6 a7 a8 a9 a10 a11 a12 a13 a14 a15 a16 a17 a18 a19 := s in
  mkState a1 a2 a3 v a5 a6 a7 a8 a9 a10 a11 a12 a13 a14 a15 a16 a17 a18 a19.
Definition fl_speed v (s : State) : State :=
  let 'mkState a1 a2 a3 a4 _ a6 a7 a8 a9 a10 a11 a12 a13 a14 a15 a16 a17 a18 a19 := s in
  mkState a1 a2 a3 a4 v a6 a7 a8 a9 a10 a11 a12 a13 a14 a15 a16 a17 a18 a19.
Definition GFX_EFB_SCALE v (s : State) : State :=
  let 'mkState a1 a2 a3 a4 a5 _ a7 a8 a9 a10 a11 a12 a13 a14 a15 a16 a17 a18 a19 := s in
  mkState a1 a2 a3 a4 a5 v a7 a8 a9 a10 a11 a12 a13 a14 a15 a16 a17 a18 a19.
Definition GFX_CROP v (s : State) : State :=
  let 'mkState a1 a2 a3 a4 a5 a6 _ a8 a9 a10 a11 a12 a13 a14 a15 a16 a17 a18 a19 := s in
  mkState a1 a2 a3 a4 a5 a6 v a8 a9 a10 a11 a12 a13 a14 a15 a16 a17 a18 a19.
Definition GFX_ASPECT_RATIO v (s : State) : State :=
  let 'mkState a1 a2 a3 a4 a5 a6 a7 _ a9 a10 a11 a12 a13 a14 a15 a16 a17 a18 a19 := s in
  mkState a1 a2 a3 a4 a5 a6 a7 v a9 a10 a11 a12 a13 a14 a15 a16 a17 a18 a19.
Definition GFX_HACK_SKIP_EFB_COPY_TO_RAM v (s : State) : State :=
  let 'mkState a1 a2 a3 a4 a5 a6 a7 a8 _ a10 a11 a12 a13 a14 a15 a16 a17 a18 a19 := s in
  mkState a1 a2 a3 a4 a5 a6 a7 a8 v a10 a11 a12 a13 a14 a15 a16 a17 a18 a19.
Definition GFX_HACK_SKIP_XFB_COPY_TO_RAM v (s : State) : State :=
  let 'mkState a1 a2 a3 a4 a5 a6 a7 a8 a9 _ a11 a12 a13 a14 a15 a16 a17 a18 a19 := s in
  mkState a1 a2 a3 a4 a5 a6 a7 a8 a9 v a11 a12 a13 a14 a15 a16 a17 a18 a19.
Definition GFX_HACK_IMMEDIATE_XFB v (s : State) : State :=
  let 'mkState a1 a2 a3 a4 a5 a6 a7 a8 a9 a10 _ a12 a13 a14 a15 a16 a17 a18 a19 := s in
  mkState a1 a2 a3 a4 a5 a6 a7 a8 a9 a10 v a12 a13 a14 a15 a16 a17 a18 a19.
Definition GFX_DISABLE_FOG v (s : State) : State :=
  let 'mkState a1 a2 a3 a4 a5 a6 a7 a8 a9 a10 a11 _ a13 a14 a15 a16 a17 a18 a19 := s in
  mkState a1 a2 a3 a4 a5 a6 a7 a8 a9 a10 a11 v a13 a14 a15 a16 a17 a18 a19.
Definition GFX_DUMP_TEXTURES v (s : State) : State :=
  let 'mkState a1 a2 a3 a4 a5 a6 a7 a8 a9 a10 a11 a12 _ a14 a15 a16 a17 a18 a19 := s in
  mkState a1 a2 a3 a4 a5 a6 a7 a8 a9 a10 a11 a12 v a14 a15 a16 a17 a18 a19.
Definition GFX_HIRES_TEXTURES v (s : State) : State :=
  let 'mkState a1 a2 a3 a4 a5 a6 a7 a8 a9 a10 a11 a12 a13 _ a15 a16 a17 a18 a19 := s in
  mkState a1 a2 a3 a4 a5 a6 a7 a8 a9 a10 a11 a12 a13 v a15 a16 a17 a18 a19.
Definition m_EmulationSpeed v (s : State) : State :=
  let 'mkState a1 a2 a3 a4 a5 a6 a7 a8 a9 a10 a11 a12 a13 a14 _ a16 a17 a18 a19 := s in
  mkState a1 a2 a3 a4 a5 a6 a7 a8 a9 a10 a11 a12 a13 a14 v a16 a17 a18 a19.
Definition GFX_STEREO_MODE v (s : State) : State :=
  let 'mkState a1 a2 a3 a4 a5 a6 a7 a8 a9 a10 a11 a12 a13 a14 a15 _ a17 a18 a19 := s in
  mkState a1 a2 a3 a4 a5 a6 a7 a8 a9 a10 a11 a12 a13 a14 a15 v a17 a18 a19.
Definition GFX_ENHANCE_POST_SHADER v (s : State) : State :=
  let 'mkState a1 a2 a3 a4 a5 a6 a7 a8 a9 a10 a11 a12 a13 a14 a15 a16 _ a18 a19 := s in
  mkState a1 a2 a3 a4 a5 a6 a7 a8 a9 a10 a11 a12 a13 a14 a15 a16 v a18 a19.
Definition GFX_STEREO_DEPTH v (s : State) : State :=
  let 'mkState a1 a2 a3 a4 a5 a6 a7 a8 a9 a10 a11 a12 a13 a14 a15 a16 a17 _ a19 := s in
  mkState a1 a2 a3 a4 a5 a6 a7 a8 a9 a10 a11 a12 a13 a14 a15 a16 a17 v a19.
Definition GFX_STEREO_CONVERGENCE v (s : State) : State :=
  let 'mkState a1 a2 a3 a4 a5 a6 a7 a8 a9 a10 a11 a12 a13 a14 a15 a16 a17 a18 _ := s in
  mkState a1 a2 a3 a4 a5 a6 a7 a8 a9 a10 a11 a12 a13 a14 a15 a16 a17 a18 v.
End Set_.

(** ** Statements as state transformers with a trace *)

Definition Block : Type := State -> State * list Effect.

Definition skip : Block := fun s => (s, []).

Definition seq (a b : Block) : Block :=
  fun s => let r := a s in let r' := b (fst r) in (fst r', snd r ++ snd r').

Notation "a ;; b" := (seq a b) (at level 61, right associativity).

(** An outward call. *)
Definition call (e : Effect) : Block := fun s => (s, [e]).

(** [emit Sig();] *)
Definition emit (sig : Signal) : Block := call (Emit sig).

(** A write to the state, the new value computed from the current state. *)
Definition modify (f : State -> State) : Block := fun s => (f s, []).

(** [if (c) b], for a condition on what the iteration observes. *)
Definition when (c : bool) (b : Block) : Block := if c then b else skip.

(** [if (c) b], for a condition that reads the state. *)
Definition whenS (c : State -> bool) (b : Block) : Block :=
  fun s => if c s then b s else skip s.

(** [const auto x = Config::Get(...)]: bind a value read now. *)
Definition read {A : Type} (g : State -> A) (k : A -> Block) : Block :=
  fun s => k (g s) s.

(** [for (u32 i = first; i < first + n; i++) body(i)] *)
Fixpoint for_range (n : nat) (first : nat) (body : nat -> Block) : Block :=
  match n with
  | O => skip
  | S n' => body first ;; for_range n' (S first) body
  end.

(** ** HandleFrameskipHotkeys *)

Definition MAX_FRAME_SKIP_DELAY : Z := 60.
Definition FRAME_STEP_DELAY : Z := 30.

Definition HandleFrameskipHotkeys (env : Env) : Block :=
  if IsHotkey env HK_FRAME_ADVANCE_INCREASE_SPEED false then
    modify (fun s =>
      Set_.frame_step_delay
        (Z.min (frame_step_delay s + 1) MAX_FRAME_SKIP_DELAY) s)
  else if IsHotkey env HK_FRAME_ADVANCE_DECREASE_SPEED false then
    modify (fun s =>
      Set_.frame_step_delay (Z.max (frame_step_delay s - 1) 0) s)
  else if IsHotkey env HK_FRAME_ADVANCE_RESET_SPEED false then
    modify (Set_.frame_step_delay 1)
  else if IsHotkey env HK_FRAME_ADVANCE true then
    whenS (fun s => (frame_step_delay_count s <? frame_step_delay s)
                    && frame_step_hold s)
      (modify (fun s =>
         Set_.frame_step_delay_count (frame_step_delay_count s + 1) s)) ;;
    whenS (fun s => ((frame_step_count s =? 0)
                     || (frame_step_count s =? FRAME_STEP_DELAY))
                    && negb (frame_step_hold s))
      (call DoFrameStep ;; modify (Set_.frame_step_hold true)) ;;
    whenS (fun s => frame_step_count s <? FRAME_STEP_DELAY)
      (modify (fun s => Set_.frame_step_count (frame_step_count s + 1) s) ;;
       modify (Set_.frame_step_hold false)) ;;
    whenS (fun s => (frame_step_count s =? FRAME_STEP_DELAY)
                    && frame_step_hold s
                    && (frame_step_delay s <=? frame_step_delay_count s))
      (modify (Set_.frame_step_hold false) ;;
       modify (Set_.frame_step_delay_count 0))
  else
    whenS (fun s => 0 <? frame_step_count s)
      (modify (Set_.frame_step_count 0) ;;
       modify (Set_.frame_step_hold false) ;;
       modify (Set_.frame_step_delay_count 0)).

(** [if (c) a else b], for a condition that reads the state. *)
Definition ifS (c : State -> bool) (a b : Block) : Block :=
  fun s => if c s then a s else b s.

(** ** CheckDebuggingHotkeys *)

Definition CheckDebuggingHotkeys (env : Env) : Block :=
  when (IsHotkey env HK_STEP false) (emit Step) ;;
  when (IsHotkey env HK_STEP_OVER false) (emit StepOver) ;;
  when (IsHotkey env HK_STEP_OUT false) (emit StepOut) ;;
  when (IsHotkey env HK_SKIP false) (emit Skip) ;;
  when (IsHotkey env HK_SHOW_PC false) (emit ShowPC) ;;
  when (IsHotkey env HK_SET_PC false) (emit Skip) ;;
  when (IsHotkey env HK_BP_TOGGLE false) (emit ToggleBreakpoint) ;;
  when (IsHotkey env HK_BP_ADD false) (emit AddBreakpoint).

(** ** The body of the loop of [Run], statement group by statement group *)

(** The lambda [show_msg]. *)
Definition show_msg (env : Env) (message : OSDMessage) : Block :=
  when (g_renderer env) (call (ShowOSDMessage message)).

(** Open, disc, fullscreen, game list, pause, stop, reset. *)
Definition general_hotkeys (env : Env) : Block :=
  when (IsHotkey env HK_OPEN false) (emit Open) ;;
  when (IsHotkey env HK_EJECT_DISC false) (emit EjectDisc) ;;
  when (IsHotkey env HK_CHANGE_DISC false) (emit ChangeDisc) ;;
  when (IsHotkey env HK_FULLSCREEN false)
    (emit FullScreenHotkey ;; call (SleepCurrentThread 100)) ;;
  when (IsHotkey env HK_REFRESH_LIST false) (emit RefreshGameListHotkey) ;;
  when (IsHotkey env HK_PLAY_PAUSE false) (emit TogglePauseHotkey) ;;
  when (IsHotkey env HK_STOP false) (emit StopHotkey) ;;
  when (IsHotkey env HK_RESET false) (emit ResetHotkey).

Definition screenshot_exit_hotkeys (env : Env) : Block :=
  when (IsHotkey env HK_SCREENSHOT false) (emit ScreenShotHotkey) ;;
  when (IsHotkey env HK_EXIT false) (emit ExitHotkey).

Definition recording_hotkeys (env : Env) : Block :=
  when (IsHotkey env HK_START_RECORDING false) (emit StartRecording) ;;
  when (IsHotkey env HK_EXPORT_RECORDING false) (emit ExportRecording) ;;
  when (IsHotkey env HK_READ_ONLY_MODE false) (emit ToggleReadOnlyMode).

Definition sync_button (env : Env) : Block :=
  when (m_bt_passthrough_enabled env)
    (when (bt_device env)
       (call (UpdateSyncButtonState
                (IsHotkey env HK_TRIGGER_SYNC_BUTTON true)))).

Definition debugging_hotkeys (env : Env) : Block :=
  when (bEnableDebugging env) (CheckDebuggingHotkeys env).

(** The value of the local [wiimote_id] after the five tests. *)
Definition wiimote_id (env : Env) : Z :=
  let id := -1 in
  let id := if IsHotkey env HK_WIIMOTE1_CONNECT false then 0 else id in
  let id := if IsHotkey env HK_WIIMOTE2_CONNECT false then 1 else id in
  let id := if IsHotkey env HK_WIIMOTE3_CONNECT false then 2 else id in
  let id := if IsHotkey env HK_WIIMOTE4_CONNECT false then 3 else id in
  let id := if IsHotkey env HK_BALANCEBOARD_CONNECT false then 4 else id in
  id.

Definition wiimote_hotkeys (env : Env) : Block :=
  when (bWii env)
    (when (-1 <? wiimote_id env) (emit (ConnectWiiRemote (wiimote_id env)))).

Definition volume_hotkeys (env : Env) : Block :=
  when (IsHotkey env HK_VOLUME_DOWN false)
    (show_msg env VolumeChanged ;; call (DecreaseVolume 3)) ;;
  when (IsHotkey env HK_VOLUME_UP false)
    (show_msg env VolumeChanged ;; call (IncreaseVolume 3)) ;;
  when (IsHotkey env HK_VOLUME_TOGGLE_MUTE false)
    (show_msg env VolumeChanged ;; call ToggleMuteVolume).

Definition graphics_hotkeys (env : Env) : Block :=
  read GFX_EFB_SCALE (fun efb_scale =>
    when (IsHotkey env HK_INCREASE_IR false)
      (show_msg env IRChanged ;;
       modify (Set_.GFX_EFB_SCALE (efb_scale + 1))) ;;
    when (IsHotkey env HK_DECREASE_IR false)
      (show_msg env IRChanged ;;
       when (EFB_SCALE_AUTO_INTEGRAL env <? efb_scale)
         (modify (Set_.GFX_EFB_SCALE (efb_scale - 1))))) ;;
  when (IsHotkey env HK_TOGGLE_CROP false)
    (modify (fun s => Set_.GFX_CROP (negb (GFX_CROP s)) s)) ;;
  when (IsHotkey env HK_TOGGLE_AR false)
    (show_msg env ARToggled ;;
     modify (fun s =>
       let aspect_ratio := Z.land (GFX_ASPECT_RATIO s + 1) 3 in
       Set_.GFX_ASPECT_RATIO aspect_ratio s)) ;;
  when (IsHotkey env HK_TOGGLE_EFBCOPIES false)
    (show_msg env EFBCopyToggled ;;
     modify (fun s =>
       Set_.GFX_HACK_SKIP_EFB_COPY_TO_RAM
         (negb (GFX_HACK_SKIP_EFB_COPY_TO_RAM s)) s)) ;;
  when (IsHotkey env HK_TOGGLE_XFBCOPIES false)
    (show_msg env XFBChanged ;;
     modify (fun s =>
       Set_.GFX_HACK_SKIP_XFB_COPY_TO_RAM
         (negb (GFX_HACK_SKIP_XFB_COPY_TO_RAM s)) s)) ;;
  when (IsHotkey env HK_TOGGLE_IMMEDIATE_XFB false)
    (show_msg env XFBChanged ;;
     modify (fun s =>
       Set_.GFX_HACK_IMMEDIATE_XFB (negb (GFX_HACK_IMMEDIATE_XFB s)) s)) ;;
  when (IsHotkey env HK_TOGGLE_FOG false)
    (show_msg env FogToggled ;;
     modify (fun s => Set_.GFX_DISABLE_FOG (negb (GFX_DISABLE_FOG s)) s)) ;;
  when (IsHotkey env HK_TOGGLE_DUMPTEXTURES false)
    (modify (fun s =>
       Set_.GFX_DUMP_TEXTURES (negb (GFX_DUMP_TEXTURES s)) s)) ;;
  when (IsHotkey env HK_TOGGLE_TEXTURES false)
    (modify (fun s =>
       Set_.GFX_HIRES_TEXTURES (negb (GFX_HIRES_TEXTURES s)) s)).

Definition throttle_hotkey (env : Env) : Block :=
  call (SetIsThrottlerTempDisabled (IsHotkey env HK_TOGGLE_THROTTLE true)).

(** *** Emulation speed *)

#[local] Set Warnings "-inexact-float".

Definition fgeb (x y : float) : bool := PrimFloat.leb y x.

(** The two statements on the local [speed] of the decrease branch. *)
Definition decrease_emulation_speed (current : float) : float :=
  let speed := PrimFloat.sub current 0.1%float in
  if PrimFloat.leb speed 0%float
     || (fgeb speed 0.95%float && PrimFloat.leb speed 1.05%float)
  then 1.0%float else speed.

(** The two statements on the local [speed] of the increase branch. *)
Definition increase_emulation_speed (current : float) : float :=
  let speed := PrimFloat.add current 0.1%float in
  if fgeb speed 0.95%float && PrimFloat.leb speed 1.05%float
  then 1.0%float else speed.

Definition emulation_speed_hotkeys (env : Env) : Block :=
  when (IsHotkey env HK_DECREASE_EMULATION_SPEED false)
    (show_msg env SpeedChanged ;;
     modify (fun s =>
       Set_.m_EmulationSpeed
         (decrease_emulation_speed (m_EmulationSpeed s)) s)) ;;
  when (IsHotkey env HK_INCREASE_EMULATION_SPEED false)
    (show_msg env SpeedChanged ;;
     modify (fun s =>
       Set_.m_EmulationSpeed
         (increase_emulation_speed (m_EmulationSpeed s)) s)).

Definition selected_slot_hotkeys (env : Env) : Block :=
  when (IsHotkey env HK_SAVE_STATE_SLOT_SELECTED false)
    (emit StateSaveSlotHotkey) ;;
  when (IsHotkey env HK_LOAD_STATE_SLOT_SELECTED false)
    (emit StateLoadSlotHotkey).

(** *** Stereoscopy *)

Definition DUBOIS_ALGORITHM_SHADER : string := "dubois".

Definition shader_is_dubois (s : State) : bool :=
  String.eqb (GFX_ENHANCE_POST_SHADER s) DUBOIS_ALGORITHM_SHADER.

Definition stereo_mode_is_not (m : StereoMode) (s : State) : bool :=
  negb (StereoMode_eqb (GFX_STEREO_MODE s) m).

Definition stereo_sbs_tab_hotkeys (env : Env) : Block :=
  when (IsHotkey env HK_TOGGLE_STEREO_SBS false
        || IsHotkey env HK_TOGGLE_STEREO_TAB false)
    (ifS (stereo_mode_is_not SBS)
       (whenS shader_is_dubois
          (modify (Set_.GFX_ENHANCE_POST_SHADER EmptyString)) ;;
        modify (Set_.GFX_STEREO_MODE
                  (if IsHotkey env HK_TOGGLE_STEREO_SBS false
                   then SBS else TAB)))
       (modify (Set_.GFX_STEREO_MODE Off))).

Definition stereo_anaglyph_hotkey (env : Env) : Block :=
  when (IsHotkey env HK_TOGGLE_STEREO_ANAGLYPH false)
    (ifS (stereo_mode_is_not Anaglyph)
       (modify (Set_.GFX_STEREO_MODE Anaglyph) ;;
        modify (Set_.GFX_ENHANCE_POST_SHADER DUBOIS_ALGORITHM_SHADER))
       (modify (Set_.GFX_STEREO_MODE Off) ;;
        modify (Set_.GFX_ENHANCE_POST_SHADER EmptyString))).

Definition stereo_3dvision_hotkey (env : Env) : Block :=
  when (IsHotkey env HK_TOGGLE_STEREO_3DVISION false)
    (ifS (stereo_mode_is_not Nvidia3DVision)
       (whenS shader_is_dubois
          (modify (Set_.GFX_ENHANCE_POST_SHADER EmptyString)) ;;
        modify (Set_.GFX_STEREO_MODE Nvidia3DVision))
       (modify (Set_.GFX_STEREO_MODE Off))).

Definition stereoscopy_hotkeys (env : Env) : Block :=
  stereo_sbs_tab_hotkeys env ;;
  stereo_anaglyph_hotkey env ;;
  stereo_3dvision_hotkey env.

(** *** After the lifecycle gate: depth, convergence, free look, slots *)

Definition stereo_depth_hotkeys (env : Env) : Block :=
  read GFX_STEREO_DEPTH (fun stereo_depth =>
    when (IsHotkey env HK_DECREASE_DEPTH true)
      (modify (Set_.GFX_STEREO_DEPTH (Z.min (stereo_depth - 1) 0))) ;;
    when (IsHotkey env HK_INCREASE_DEPTH true)
      (modify (Set_.GFX_STEREO_DEPTH (Z.min (stereo_depth + 1) 100)))).

Definition stereo_convergence_hotkeys (env : Env) : Block :=
  read GFX_STEREO_CONVERGENCE (fun stereo_convergence =>
    when (IsHotkey env HK_DECREASE_CONVERGENCE true)
      (modify (Set_.GFX_STEREO_CONVERGENCE
                 (Z.max (stereo_convergence - 5) 0))) ;;
    when (IsHotkey env HK_INCREASE_CONVERGENCE true)
      (modify (Set_.GFX_STEREO_CONVERGENCE
                 (Z.min (stereo_convergence + 5) 500)))).

Definition freelook_hotkeys (env : Env) : Block :=
  when (IsHotkey env HK_FREELOOK_DECREASE_SPEED true)
    (modify (fun s => Set_.fl_speed (FlDiv (fl_speed s)) s)) ;;
  when (IsHotkey env HK_FREELOOK_INCREASE_SPEED true)
    (modify (fun s => Set_.fl_speed (FlMul (fl_speed s)) s)) ;;
  when (IsHotkey env HK_FREELOOK_RESET_SPEED true)
    (modify (Set_.fl_speed FlOne)) ;;
  when (IsHotkey env HK_FREELOOK_UP true)
    (read fl_speed (fun v => call (TranslateView FlZero FlZero (FlMinus v)))) ;;
  when (IsHotkey env HK_FREELOOK_DOWN true)
    (read fl_speed (fun v => call (TranslateView FlZero FlZero (FlPlus v)))) ;;
  when (IsHotkey env HK_FREELOOK_LEFT true)
    (read fl_speed (fun v => call (TranslateView (FlPlus v) FlZero FlZero))) ;;
  when (IsHotkey env HK_FREELOOK_RIGHT true)
    (read fl_speed (fun v => call (TranslateView (FlMinus v) FlZero FlZero))) ;;
  when (IsHotkey env HK_FREELOOK_ZOOM_IN true)
    (read fl_speed (fun v => call (TranslateView FlZero (FlPlus v) FlZero))) ;;
  when (IsHotkey env HK_FREELOOK_ZOOM_OUT true)
    (read fl_speed (fun v => call (TranslateView FlZero (FlMinus v) FlZero))) ;;
  when (IsHotkey env HK_FREELOOK_RESET true) (call ResetView).

(** Modelled from the spec: [State::NUM_STATES] is declared in
    [Core/State.h], which is not among the sources; the specification fixes
    the number of slots at ten. *)
Definition NUM_STATES : nat := 10.

(** The body of the save-state loop for slot index [i]. *)
Definition savestate_slot (env : Env) (i : nat) : Block :=
  when (IsHotkey env (HK_LOAD_STATE_SLOT_1 i) false)
    (emit (StateLoadSlot (Z.of_nat i + 1))) ;;
  when (IsHotkey env (HK_SAVE_STATE_SLOT_1 i) false)
    (emit (StateSaveSlot (Z.of_nat i + 1))) ;;
  when (IsHotkey env (HK_LOAD_LAST_STATE_1 i) false)
    (emit (StateLoadLastSaved (Z.of_nat i + 1))) ;;
  when (IsHotkey env (HK_SELECT_STATE_SLOT_1 i) false)
    (emit (SetStateSlotHotkey (Z.of_nat i + 1))).

Definition savestate_hotkeys (env : Env) : Block :=
  for_range NUM_STATES 0 (savestate_slot env).

Definition undo_hotkeys (env : Env) : Block :=
  when (IsHotkey env HK_SAVE_FIRST_STATE false) (emit StateSaveOldest) ;;
  when (IsHotkey env HK_UNDO_LOAD_STATE false) (emit StateLoadUndo) ;;
  when (IsHotkey env HK_UNDO_SAVE_STATE false) (emit StateSaveUndo).

(** ** Run *)

(** What stands between [if (!Core::IsRunningAndStarted()) continue;] and
    the closing brace of [if (Core::GetState() != Core::State::Stopping)]. *)
Definition gated_hotkeys (env : Env) : Block :=
  general_hotkeys env ;;
  HandleFrameskipHotkeys env ;;
  screenshot_exit_hotkeys env ;;
  recording_hotkeys env ;;
  sync_button env ;;
  debugging_hotkeys env ;;
  wiimote_hotkeys env ;;
  volume_hotkeys env ;;
  graphics_hotkeys env ;;
  throttle_hotkey env ;;
  emulation_speed_hotkeys env ;;
  selected_slot_hotkeys env ;;
  stereoscopy_hotkeys env.

(** What follows that closing brace, up to the end of the loop body. *)
Definition ungated_hotkeys (env : Env) : Block :=
  stereo_depth_hotkeys env ;;
  stereo_convergence_hotkeys env ;;
  freelook_hotkeys env ;;
  savestate_hotkeys env ;;
  undo_hotkeys env.

(** One iteration of [while (!m_stop_requested.IsSet())].  Each [continue]
    of the source ends the iteration: the statements after it are the
    branch not taken. *)
Definition Run_tick (env : Env) : Block :=
  call (SleepCurrentThread (1000 / 60)) ;;
  when (IsEnabled env)
    (when (CoreState_eqb (GetState env) Uninitialized
           || CoreState_eqb (GetState env) Paused)
       (call UpdateInput) ;;
     if negb (CoreState_eqb (GetState env) Stopping) then
       call GetStatus ;;
       when (IsRunningAndStarted env)
         (gated_hotkeys env ;; ungated_hotkeys env)
     else
       ungated_hotkeys env).

(** The loop, over the observations of its successive iterations.  The
    stop flag is tested at the head of every iteration. *)
Fixpoint Run (envs : list Env) : Block :=
  match envs with
  | [] => skip
  | env :: rest =>
      if m_stop_requested env then skip else Run_tick env ;; Run rest
  end.

(** The traces of the successive iterations of [Run], one per iteration. *)
Fixpoint tick_traces (envs : list Env) (s : State) : list (list Effect) :=
  match envs with
  | [] => []
  | env :: rest =>
      if m_stop_requested env then []
      else let r := Run_tick env s in snd r :: tick_traces rest (fst r)
  end.

(** ** Reading a trace *)

(** The calls of one kind along a trace, in order; [obs] picks the kind
    and what is remembered of each call. *)
Definition observe {A : Type} (obs : Effect -> option A) (t : list Effect)
  : list A :=
  flat_map (fun e => match obs e with Some a => [a] | None => [] end) t.

Definition signal_of (e : Effect) : option Signal :=
  match e with Emit sig => Some sig | _ => None end.

Definition connect_of (e : Effect) : option Z :=
  match e with Emit (ConnectWiiRemote id) => Some id | _ => None end.

Definition frame_step_of (e : Effect) : option unit :=
  match e with DoFrameStep => Some tt | _ => None end.

(** The signals emitted along a trace. *)
Definition signals : list Effect -> list Signal := observe signal_of.

(** The ids of the [ConnectWiiRemote] signals along a trace. *)
Definition connect_commands : list Effect -> list Z := observe connect_of.

(** How many times [Core::DoFrameStep()] is called along a trace. *)
Definition frame_steps (t : list Effect) : nat :=
  List.length (observe frame_step_of t).

(** ** Inputs used in examples *)

(** A state to run examples from: the statics as the program initialises
    them, the emulation speed at 1.0, stereoscopy off with no shader, and
    in-range values for the remaining configuration entries. *)
Definition initial_state : State :=
  {| frame_step_count := 0; frame_step_delay := 1;
     frame_step_delay_count := 0; frame_step_hold := false;
     fl_speed := FlOne;
     GFX_EFB_SCALE := 2; GFX_CROP := false; GFX_ASPECT_RATIO := 0;
     GFX_HACK_SKIP_EFB_COPY_TO_RAM := true;
     GFX_HACK_SKIP_XFB_COPY_TO_RAM := true;
     GFX_HACK_IMMEDIATE_XFB := false;
     GFX_DISABLE_FOG := false; GFX_DUMP_TEXTURES := false;
     GFX_HIRES_TEXTURES := false;
     m_EmulationSpeed := 1.0%float;
     GFX_STEREO_MODE := Off; GFX_ENHANCE_POST_SHADER := EmptyString;
     GFX_STEREO_DEPTH := 20; GFX_STEREO_CONVERGENCE := 20 |}.

(** The sample in which exactly the hotkey [k] is asserted. *)
Definition only (k : Hotkey) : Hotkey -> bool -> bool :=
  fun k' _ => if Hotkey_eq_dec k' k then true else false.

(** A running Wii game with debugging on, a renderer, no Bluetooth
    passthrough; [keys] is the hotkey sample. *)
Definition running_env (keys : Hotkey -> bool -> bool) : Env :=
  {| m_stop_requested := false; IsEnabled := true; GetState := Running;
     IsRunningAndStarted := true; IsHotkey := keys;
     m_bt_passthrough_enabled := false; bt_device := false;
     bEnableDebugging := true; bWii := true; g_renderer := true;
     EFB_SCALE_AUTO_INTEGRAL := 0 |}.

(** The same host while it is shutting down. *)
Definition stopping_env (keys : Hotkey -> bool -> bool) : Env :=
  {| m_stop_requested := false; IsEnabled := true; GetState := Stopping;
     IsRunningAndStarted := false; IsHotkey := keys;
     m_bt_passthrough_enabled := false; bt_device := false;
     bEnableDebugging := true; bWii := true; g_renderer := true;
     EFB_SCALE_AUTO_INTEGRAL := 0 |}.


(** ** Properties of statements *)

(** [b] leaves what [f] reads of the state as it was. *)
Definition keeps {A : Type} (f : State -> A) (b : Block) : Prop :=
  forall s, f (fst (b s)) = f s.

(** [b] makes no call of the kind [obs] picks. *)
Definition silent {A : Type} (obs : Effect -> option A) (b : Block) : Prop :=
  forall s, observe obs (snd (b s)) = [].

(** What [f] reads after [b] is [g] of what it read before. *)
Definition updates {A : Type} (f : State -> A) (g : A -> A) (b : Block)
  : Prop :=
  forall s, f (fst (b s)) = g (f s).

(** The calls of the kind [obs] picks that [b] makes are [l], whatever the
    state. *)
Definition produces {A : Type} (obs : Effect -> option A) (l : list A)
  (b : Block) : Prop :=
  forall s, observe obs (snd (b s)) = l.

(** ** Conditions on what an iteration observes *)

(** The iteration gets past the enable gate, the lifecycle gate and the
    running test: every statement group of the loop body is executed. *)
Definition processing (env : Env) : Prop :=
  IsEnabled env = true /\ GetState env <> Stopping
  /\ IsRunningAndStarted env = true.

(** Exactly the hotkey [k] is asserted, in either query mode. *)
Definition only_asserted (env : Env) (k : Hotkey) : Prop :=
  forall k' held, IsHotkey env k' held = true <-> k' = k.

(** The frame-advance key is held and none of the three keys that adjust
    the delay fires. *)
Definition frame_advance_held (env : Env) : Prop :=
  IsHotkey env HK_FRAME_ADVANCE_INCREASE_SPEED false = false
  /\ IsHotkey env HK_FRAME_ADVANCE_DECREASE_SPEED false = false
  /\ IsHotkey env HK_FRAME_ADVANCE_RESET_SPEED false = false
  /\ IsHotkey env HK_FRAME_ADVANCE true = true.

(** The statics of the frame-step machine: count, delay, delay count,
    hold. *)
Definition frame_step_statics (s : State) : Z * Z * Z * bool :=
  (frame_step_count s, frame_step_delay s, frame_step_delay_count s,
   frame_step_hold s).

(** The configuration entries and statics that only statements inside the
    lifecycle gate write. *)
Definition gated_state (s : State)
  : (Z * Z * Z * bool) * (Z * bool * Z * bool * bool * bool * bool * bool * bool)
    * (float * StereoMode * string) :=
  (frame_step_statics s,
   (GFX_EFB_SCALE s, GFX_CROP s, GFX_ASPECT_RATIO s,
    GFX_HACK_SKIP_EFB_COPY_TO_RAM s, GFX_HACK_SKIP_XFB_COPY_TO_RAM s,
    GFX_HACK_IMMEDIATE_XFB s, GFX_DISABLE_FOG s, GFX_DUMP_TEXTURES s,
    GFX_HIRES_TEXTURES s),
   (m_EmulationSpeed s, GFX_STEREO_MODE s, GFX_ENHANCE_POST_SHADER s)).

(** The signals of the statement groups placed after the lifecycle gate. *)
Definition is_slot_signal (sig : Signal) : Prop :=
  match sig with
  | StateLoadSlot _ | StateSaveSlot _ | StateLoadLastSaved _
  | SetStateSlotHotkey _ | StateSaveOldest | StateLoadUndo
  | StateSaveUndo => True
  | _ => False
  end.

(** ** The claims in the words of the specification *)

(** Frame step, as the specification words it: cut the run into consecutive
    windows of [period] iterations; every complete window contains exactly
    one call of [Core::DoFrameStep()]. *)
Definition one_step_every (period : nat) (ticks : list (list Effect)) : Prop :=
  forall k : nat,
    ((k + 1) * period <= List.length ticks)%nat ->
    frame_steps (List.concat (firstn period (skipn (k * period) ticks))) = 1%nat.

(** The Wii connect action of highest number that is asserted, by the
    order of the specification: Balance Board over Wii Remote 4, 3, 2, 1. *)
Definition highest_connect (env : Env) : option Z :=
  if IsHotkey env HK_BALANCEBOARD_CONNECT false then Some 4
  else if IsHotkey env HK_WIIMOTE4_CONNECT false then Some 3
  else if IsHotkey env HK_WIIMOTE3_CONNECT false then Some 2
  else if IsHotkey env HK_WIIMOTE2_CONNECT false then Some 1
  else if IsHotkey env HK_WIIMOTE1_CONNECT false then Some 0
  else None.

(** The state [initial_state] with the frame-step delay set to [d]. *)
Definition with_delay (d : Z) : State := Set_.frame_step_delay d initial_state.

(** ** The frame-step machine while the key is held *)

(** Where the statics stand after [t] iterations with the frame-advance key
    held all along and the delay at [d]: counting up to
    [FRAME_STEP_DELAY]; then, in rounds of [d + 1] iterations, at the head
    of a round (about to step) or [p] iterations into it (waiting). *)
Inductive held_after (d t : Z) (s : State) : Prop :=
| held_counting :
    0 <= t <= FRAME_STEP_DELAY ->
    frame_step_statics s = (t, d, 0, false) ->
    held_after d t s
| held_round_head (k : Z) :
    0 <= k -> t = FRAME_STEP_DELAY + k * (d + 1) ->
    frame_step_statics s = (FRAME_STEP_DELAY, d, 0, false) ->
    held_after d t s
| held_waiting (k p : Z) :
    0 <= k -> 1 <= p <= d -> t = FRAME_STEP_DELAY + k * (d + 1) + p ->
    frame_step_statics s = (FRAME_STEP_DELAY, d, p - 1, true) ->
    held_after d t s.

(** The iterations on which the held key steps a frame: the first, and,
    from the thirty-first on, the head of every round of [d + 1]. *)
Definition steps_on (d t : Z) : Prop :=
  t = 0 \/ exists k : Z, 0 <= k /\ t = FRAME_STEP_DELAY + k * (d + 1).

(** What every iteration of a run with the key held observes. *)
Definition holding (env : Env) : Prop :=
  m_stop_requested env = false /\ processing env /\ frame_advance_held env.

(** What one iteration does to the emulation speed: the decrease branch
    if its key fires, then the increase branch if its key fires. *)
Definition speed_update (env : Env) (v : float) : float :=
  let v := if IsHotkey env HK_DECREASE_EMULATION_SPEED false
           then decrease_emulation_speed v else v in
  if IsHotkey env HK_INCREASE_EMULATION_SPEED false
  then increase_emulation_speed v else v.

(** The snap band of the emulation speed, in the words of the
    specification: the value lies in [[0.95, 1.05]]. *)
Definition in_snap_band (x : float) : Prop :=
  PrimFloat.leb 0.95%float x = true /\ PrimFloat.leb x 1.05%float = true.

(** The degenerate bound: the value is at most 0. *)
Definition at_most_zero (x : float) : Prop :=
  PrimFloat.leb x 0%float = true.

(** Every call [b] makes satisfies [P]. *)
Definition calls_only (P : Effect -> Prop) (b : Block) : Prop :=
  forall s, Forall P (snd (b s)).

(** A call is either no signal or one of the signals of the statement
    groups placed after the lifecycle gate. *)
Definition slot_signal_or_call (e : Effect) : Prop :=
  match signal_of e with Some sig => is_slot_signal sig | None => True end.

(** The four actions the save-state loop tests for each slot index, with
    the hotkey id and the signal of each. *)
Inductive SlotAction : Type :=
| LoadSlot | SaveSlot | LoadLastSaved | SelectSlot.

Definition slot_hotkey (a : SlotAction) (i : nat) : Hotkey :=
  match a with
  | LoadSlot => HK_LOAD_STATE_SLOT_1 i
  | SaveSlot => HK_SAVE_STATE_SLOT_1 i
  | LoadLastSaved => HK_LOAD_LAST_STATE_1 i
  | SelectSlot => HK_SELECT_STATE_SLOT_1 i
  end.

Definition slot_signal (a : SlotAction) (n : Z) : Signal :=
  match a with
  | LoadSlot => StateLoadSlot n
  | SaveSlot => StateSaveSlot n
  | LoadLastSaved => StateLoadLastSaved n
  | SelectSlot => SetStateSlotHotkey n
  end.

(** None of the five Wii connect actions is asserted. *)
Definition no_connect_asserted (env : Env) : Prop :=
  IsHotkey env HK_WIIMOTE1_CONNECT false = false
  /\ IsHotkey env HK_WIIMOTE2_CONNECT false = false
  /\ IsHotkey env HK_WIIMOTE3_CONNECT false = false
  /\ IsHotkey env HK_WIIMOTE4_CONNECT false = false
  /\ IsHotkey env HK_BALANCEBOARD_CONNECT false = false.

(** The connect command of an iteration, if any: the id of the asserted
    action of highest number. *)
Definition expected_connect (env : Env) : list Z :=
  match highest_connect env with Some id => [id] | None => [] end.

(** The iteration reaches the save-state loop: the enable gate is open and
    either the host is shutting down (the lifecycle gate is skipped, and with
    it the running test inside) or the core is running and started. *)
Definition reaches_slot_loop (env : Env) : Prop :=
  IsEnabled env = true
  /\ (GetState env = Stopping \/ IsRunningAndStarted env = true).

(** What one iteration does to the stereoscopy depth; both branches
    compute from the value read before them. *)
Definition depth_update (env : Env) (stereo_depth : Z) : Z :=
  if IsHotkey env HK_INCREASE_DEPTH true then Z.min (stereo_depth + 1) 100
  else if IsHotkey env HK_DECREASE_DEPTH true then Z.min (stereo_depth - 1) 0
  else stereo_depth.

(** What one iteration does to the stereoscopy convergence. *)
Definition convergence_update (env : Env) (stereo_convergence : Z) : Z :=
  if IsHotkey env HK_INCREASE_CONVERGENCE true
  then Z.min (stereo_convergence + 5) 500
  else if IsHotkey env HK_DECREASE_CONVERGENCE true
  then Z.max (stereo_convergence - 5) 0
  else stereo_convergence.

(** The stereoscopy mode together with the post-processing shader. *)
Definition stereo_view (s : State) : StereoMode * string :=
  (GFX_STEREO_MODE s, GFX_ENHANCE_POST_SHADER s).

(** A sample with two connect actions asserted at once. *)
Definition two_connect_keys : Hotkey -> bool -> bool :=
  fun k _ =>
    match k with
    | HK_WIIMOTE2_CONNECT | HK_BALANCEBOARD_CONNECT => true
    | _ => false
    end.

(** What the three stereoscopy statement groups do to the pair of mode and
    shader, one group after the other. *)
Definition clear_dubois (shader : string) : string :=
  if String.eqb shader DUBOIS_ALGORITHM_SHADER then EmptyString else shader.

Definition sbs_tab_update (env : Env) (v : StereoMode * string)
  : StereoMode * string :=
  if IsHotkey env HK_TOGGLE_STEREO_SBS false
     || IsHotkey env HK_TOGGLE_STEREO_TAB false
  then
    if negb (StereoMode_eqb (fst v) SBS)
    then (if IsHotkey env HK_TOGGLE_STEREO_SBS false then SBS else TAB,
          clear_dubois (snd v))
    else (Off, snd v)
  else v.

Definition anaglyph_update (env : Env) (v : StereoMode * string)
  : StereoMode * string :=
  if IsHotkey env HK_TOGGLE_STEREO_ANAGLYPH false
  then
    if negb (StereoMode_eqb (fst v) Anaglyph)
    then (Anaglyph, DUBOIS_ALGORITHM_SHADER)
    else (Off, EmptyString)
  else v.

Definition vision3d_update (env : Env) (v : StereoMode * string)
  : StereoMode * string :=
  if IsHotkey env HK_TOGGLE_STEREO_3DVISION false
  then
    if negb (StereoMode_eqb (fst v) Nvidia3DVision)
    then (Nvidia3DVision, clear_dubois (snd v))
    else (Off, snd v)
  else v.

Definition stereo_update (env : Env) (v : StereoMode * string)
  : StereoMode * string :=
  vision3d_update env (anaglyph_update env (sbs_tab_update env v)).

(** ** Invariants and further conditions *)

(** [b] keeps the state inside [P]. *)
Definition preserves (P : State -> Prop) (b : Block) : Prop :=
  forall s, P s -> P (fst (b s)).

(** The ranges the frame-step statics stay in: the count within
    [[0, FRAME_STEP_DELAY]], the delay and the delay count within
    [[0, MAX_FRAME_SKIP_DELAY]]; and while the count has not reached
    [FRAME_STEP_DELAY] the hold flag is down and the delay count is 0. *)
Definition frame_step_ranges (v : Z * Z * Z * bool) : Prop :=
  let '(count, delay, delay_count, hold) := v in
  0 <= count <= FRAME_STEP_DELAY
  /\ 0 <= delay <= MAX_FRAME_SKIP_DELAY
  /\ 0 <= delay_count <= MAX_FRAME_SKIP_DELAY
  /\ (count < FRAME_STEP_DELAY -> hold = false /\ delay_count = 0).

(** None of the three keys that adjust the frame-step delay fires. *)
Definition no_delay_key (env : Env) : Prop :=
  IsHotkey env HK_FRAME_ADVANCE_INCREASE_SPEED false = false
  /\ IsHotkey env HK_FRAME_ADVANCE_DECREASE_SPEED false = false
  /\ IsHotkey env HK_FRAME_ADVANCE_RESET_SPEED false = false.

(** The frame-advance key is up and no delay key fires. *)
Definition frame_advance_released (env : Env) : Prop :=
  no_delay_key env /\ IsHotkey env HK_FRAME_ADVANCE true = false.

(** [processing], as a test. *)
Definition processes (env : Env) : bool :=
  IsEnabled env && negb (CoreState_eqb (GetState env) Stopping)
  && IsRunningAndStarted env.


(** What one iteration does to the aspect ratio. *)
Definition aspect_ratio_update (env : Env) (aspect : Z) : Z :=
  if IsHotkey env HK_TOGGLE_AR false then Z.land (aspect + 1) 3 else aspect.

(** The seven boolean graphics settings with a toggle hotkey: crop, skip
    EFB copy to RAM, skip XFB copy to RAM, immediate XFB, disable fog, dump
    textures, hires textures. *)
Definition graphics_flags (s : State)
  : bool * bool * bool * bool * bool * bool * bool :=
  (GFX_CROP s, GFX_HACK_SKIP_EFB_COPY_TO_RAM s,
   GFX_HACK_SKIP_XFB_COPY_TO_RAM s, GFX_HACK_IMMEDIATE_XFB s,
   GFX_DISABLE_FOG s, GFX_DUMP_TEXTURES s, GFX_HIRES_TEXTURES s).

(** Each flag flipped exactly when its own hotkey fires. *)
Definition flip_if (key : bool) (flag : bool) : bool :=
  if key then negb flag else flag.

Definition graphics_flags_update (env : Env)
  (v : bool * bool * bool * bool * bool * bool * bool)
  : bool * bool * bool * bool * bool * bool * bool :=
  let '(crop, efb, xfb, imm, fog, dump, hires) := v in
  (flip_if (IsHotkey env HK_TOGGLE_CROP false) crop,
   flip_if (IsHotkey env HK_TOGGLE_EFBCOPIES false) efb,
   flip_if (IsHotkey env HK_TOGGLE_XFBCOPIES false) xfb,
   flip_if (IsHotkey env HK_TOGGLE_IMMEDIATE_XFB false) imm,
   flip_if (IsHotkey env HK_TOGGLE_FOG false) fog,
   flip_if (IsHotkey env HK_TOGGLE_DUMPTEXTURES false) dump,
   flip_if (IsHotkey env HK_TOGGLE_TEXTURES false) hires).

Definition osd_of (e : Effect) : option OSDMessage :=
  match e with ShowOSDMessage m => Some m | _ => None end.

(** The on-screen messages shown along a trace. *)
Definition osd_messages : list Effect -> list OSDMessage := observe osd_of.

(** The Dubois shader is selected only together with the anaglyph mode. *)
Definition dubois_only_with_anaglyph (v : StereoMode * string) : Prop :=
  snd v = DUBOIS_ALGORITHM_SHADER -> fst v = Anaglyph.

(** The iteration is not the last one and processes its hotkeys. *)
Definition goes_on_processing (env : Env) : Prop :=
  m_stop_requested env = false /\ processing env.

(** ** Counting one signal *)

Definition Signal_eq_dec (a b : Signal) : {a = b} + {a <> b}.
Proof. decide equality; apply Z.eq_dec. Defined.

Definition signal_is (sig : Signal) (e : Effect) : option unit :=
  match e with
  | Emit sig' => if Signal_eq_dec sig' sig then Some tt else None
  | _ => None
  end.

(** How many times the signal [sig] is emitted along a trace. *)
Definition emitted (sig : Signal) (t : list Effect) : nat :=
  List.length (observe (signal_is sig) t).

(** Once if [c], not at all otherwise. *)
Definition once_if (c : bool) : list unit := if c then [tt] else [].

(** The hotkeys inside the lifecycle gate whose whole effect is one
    signal, each with its signal. *)
Definition plain_commands : list (Hotkey * Signal) :=
  [ (HK_OPEN, Open); (HK_EJECT_DISC, EjectDisc);
    (HK_CHANGE_DISC, ChangeDisc); (HK_FULLSCREEN, FullScreenHotkey);
    (HK_REFRESH_LIST, RefreshGameListHotkey);
    (HK_PLAY_PAUSE, TogglePauseHotkey); (HK_STOP, StopHotkey);
    (HK_RESET, ResetHotkey); (HK_SCREENSHOT, ScreenShotHotkey);
    (HK_EXIT, ExitHotkey); (HK_START_RECORDING, StartRecording);
    (HK_EXPORT_RECORDING, ExportRecording);
    (HK_READ_ONLY_MODE, ToggleReadOnlyMode);
    (HK_SAVE_STATE_SLOT_SELECTED, StateSaveSlotHotkey);
    (HK_LOAD_STATE_SLOT_SELECTED, StateLoadSlotHotkey) ].

(** The debugging hotkeys that emit the signal of their own name. *)
Definition debugging_commands : list (Hotkey * Signal) :=
  [ (HK_STEP, Step); (HK_STEP_OVER, StepOver); (HK_STEP_OUT, StepOut);
    (HK_SHOW_PC, ShowPC); (HK_BP_TOGGLE, ToggleBreakpoint);
    (HK_BP_ADD, AddBreakpoint) ].

(** Every signal [CheckDebuggingHotkeys] can emit. *)
Definition debugging_signals : list Signal :=
  [ Step; StepOver; StepOut; Skip; ShowPC; ToggleBreakpoint; AddBreakpoint ].

(** The three save-state hotkeys after the slot loop. *)
Definition undo_commands : list (Hotkey * Signal) :=
  [ (HK_SAVE_FIRST_STATE, StateSaveOldest);
    (HK_UNDO_LOAD_STATE, StateLoadUndo);
    (HK_UNDO_SAVE_STATE, StateSaveUndo) ].

Definition sleep_of (e : Effect) : option Z :=
  match e with SleepCurrentThread ms => Some ms | _ => None end.

Definition sync_button_of (e : Effect) : option bool :=
  match e with UpdateSyncButtonState b => Some b | _ => None end.

Definition throttle_of (e : Effect) : option bool :=
  match e with SetIsThrottlerTempDisabled b => Some b | _ => None end.

(** The three calls every iteration may make before it looks at any
    hotkey. *)
Definition polling_call (e : Effect) : Prop :=
  e = SleepCurrentThread (1000 / 60) \/ e = UpdateInput \/ e = GetStatus.

(** Hotkeys are disabled, or the host is neither shutting down nor
    running a started core. *)
Definition idle (env : Env) : Prop :=
  IsEnabled env = false
  \/ (GetState env <> Stopping /\ IsRunningAndStarted env = false).

(** What one iteration does to the free-look speed: the decrease key,
    then the increase key, then the reset key. *)
Definition fl_speed_update (env : Env) (v : FlSpeed) : FlSpeed :=
  let v := if IsHotkey env HK_FREELOOK_DECREASE_SPEED true
           then FlDiv v else v in
  let v := if IsHotkey env HK_FREELOOK_INCREASE_SPEED true
           then FlMul v else v in
  if IsHotkey env HK_FREELOOK_RESET_SPEED true then FlOne else v.

(** The hotkeys that announce themselves on screen, in program order,
    each with its message. *)
Definition announced_hotkeys : list (Hotkey * OSDMessage) :=
  [ (HK_VOLUME_DOWN, VolumeChanged); (HK_VOLUME_UP, VolumeChanged);
    (HK_VOLUME_TOGGLE_MUTE, VolumeChanged);
    (HK_INCREASE_IR, IRChanged); (HK_DECREASE_IR, IRChanged);
    (HK_TOGGLE_AR, ARToggled); (HK_TOGGLE_EFBCOPIES, EFBCopyToggled);
    (HK_TOGGLE_XFBCOPIES, XFBChanged); (HK_TOGGLE_IMMEDIATE_XFB, XFBChanged);
    (HK_TOGGLE_FOG, FogToggled);
    (HK_DECREASE_EMULATION_SPEED, SpeedChanged);
    (HK_INCREASE_EMULATION_SPEED, SpeedChanged) ].

(** The messages of the announced hotkeys that fire, in program order. *)
Definition announcements (env : Env) : list OSDMessage :=
  flat_map (fun km : Hotkey * OSDMessage =>
              if IsHotkey env (fst km) false then [snd km] else [])
           announced_hotkeys.

(** * Laws of the statement combinators *)

Lemma fst_seq (a b : Block) (s : State) :
  fst ((a ;; b) s) = fst (b (fst (a s))).
Proof. reflexivity. Qed.

Lemma snd_seq (a b : Block) (s : State) :
  snd ((a ;; b) s) = snd (a s) ++ snd (b (fst (a s))).
Proof. reflexivity. Qed.

Lemma observe_app {A : Type} (obs : Effect -> option A) (t u : list Effect) :
  observe obs (t ++ u) = observe obs t ++ observe obs u.
Proof. unfold observe. apply flat_map_app. Qed.

Lemma observe_seq {A : Type} (obs : Effect -> option A) (a b : Block) s :
  observe obs (snd ((a ;; b) s))
  = observe obs (snd (a s)) ++ observe obs (snd (b (fst (a s)))).
Proof. rewrite snd_seq. apply observe_app. Qed.

Section Keeps.
Context {A : Type} (f : State -> A).

Lemma keeps_skip : keeps f skip.
Proof. intro s. reflexivity. Qed.

Lemma keeps_call (e : Effect) : keeps f (call e).
Proof. intro s. reflexivity. Qed.

Lemma keeps_modify (g : State -> State) :
  (forall s, f (g s) = f s) -> keeps f (modify g).
Proof. intros H s. apply H. Qed.

Lemma keeps_seq (a b : Block) : keeps f a -> keeps f b -> keeps f (a ;; b).
Proof. intros Ha Hb s. rewrite fst_seq, Hb. apply Ha. Qed.

Lemma keeps_when (c : bool) (b : Block) :
  (c = true -> keeps f b) -> keeps f (when c b).
Proof. destruct c; intro H; [apply H; reflexivity | apply keeps_skip]. Qed.

Lemma keeps_if (c : bool) (a b : Block) :
  keeps f a -> keeps f b -> keeps f (if c then a else b).
Proof. destruct c; auto. Qed.

Lemma keeps_ifS (c : State -> bool) (a b : Block) :
  keeps f a -> keeps f b -> keeps f (ifS c a b).
Proof. intros Ha Hb s. unfold ifS. destruct (c s); [apply Ha | apply Hb]. Qed.

Lemma keeps_whenS (c : State -> bool) (b : Block) :
  keeps f b -> keeps f (whenS c b).
Proof. intros Hb s. unfold whenS. destruct (c s); [apply Hb | reflexivity]. Qed.

Lemma keeps_read {B : Type} (g : State -> B) (k : B -> Block) :
  (forall x, keeps f (k x)) -> keeps f (read g k).
Proof. intros H s. apply H. Qed.

Lemma keeps_for_range (n first : nat) (body : nat -> Block) :
  (forall i, keeps f (body i)) -> keeps f (for_range n first body).
Proof.
  intro H. revert first.
  induction n as [|n IH]; intro first; simpl.
  - apply keeps_skip.
  - apply keeps_seq; [apply H | apply IH].
Qed.

End Keeps.

Section Silent.
Context {A : Type} (obs : Effect -> option A).

Lemma silent_skip : silent obs skip.
Proof. intro s. reflexivity. Qed.

Lemma silent_call (e : Effect) : obs e = None -> silent obs (call e).
Proof. intros H s. unfold observe. simpl. rewrite H. reflexivity. Qed.

Lemma silent_modify (g : State -> State) : silent obs (modify g).
Proof. intro s. reflexivity. Qed.

Lemma silent_seq (a b : Block) :
  silent obs a -> silent obs b -> silent obs (a ;; b).
Proof. intros Ha Hb s. rewrite observe_seq, Ha, Hb. reflexivity. Qed.

Lemma silent_when (c : bool) (b : Block) :
  (c = true -> silent obs b) -> silent obs (when c b).
Proof. destruct c; intro H; [apply H; reflexivity | apply silent_skip]. Qed.

Lemma silent_if (c : bool) (a b : Block) :
  silent obs a -> silent obs b -> silent obs (if c then a else b).
Proof. destruct c; auto. Qed.

Lemma silent_ifS (c : State -> bool) (a b : Block) :
  silent obs a -> silent obs b -> silent obs (ifS c a b).
Proof. intros Ha Hb s. unfold ifS. destruct (c s); [apply Ha | apply Hb]. Qed.

Lemma silent_whenS (c : State -> bool) (b : Block) :
  silent obs b -> silent obs (whenS c b).
Proof. intros Hb s. unfold whenS. destruct (c s); [apply Hb | reflexivity]. Qed.

Lemma silent_read {B : Type} (g : State -> B) (k : B -> Block) :
  (forall x, silent obs (k x)) -> silent obs (read g k).
Proof. intros H s. apply H. Qed.

Lemma silent_for_range (n first : nat) (body : nat -> Block) :
  (forall i, silent obs (body i)) -> silent obs (for_range n first body).
Proof.
  intro H. revert first.
  induction n as [|n IH]; intro first; simpl.
  - apply silent_skip.
  - apply silent_seq; [apply H | apply IH].
Qed.

End Silent.

(** A statement that writes nothing keeps the whole state. *)
Lemma keeps_all_fst (b : Block) (s : State) :
  keeps (fun s => s) b -> fst (b s) = s.
Proof. intro H. apply H. Qed.

Lemma updates_keeps {A : Type} (f : State -> A) (b : Block) :
  keeps f b -> updates f (fun x => x) b.
Proof. intros H s. apply H. Qed.

Lemma updates_seq {A : Type} (f : State -> A) (g1 g2 : A -> A) (a b : Block) :
  updates f g1 a -> updates f g2 b -> updates f (fun x => g2 (g1 x)) (a ;; b).
Proof. intros Ha Hb s. rewrite fst_seq, Hb, Ha. reflexivity. Qed.

Lemma produces_silent {A : Type} (obs : Effect -> option A) (b : Block) :
  silent obs b -> produces obs [] b.
Proof. intros H s. apply H. Qed.

Lemma produces_seq {A : Type} (obs : Effect -> option A) (l1 l2 : list A)
  (a b : Block) :
  produces obs l1 a -> produces obs l2 b -> produces obs (l1 ++ l2) (a ;; b).
Proof. intros Ha Hb s. rewrite observe_seq, Ha, Hb. reflexivity. Qed.

(** Dropping, from a sequence, a part that is irrelevant to what is
    looked at. *)
Lemma skip_head_state {A : Type} (f : State -> A) (a b : Block) s :
  keeps (fun s => s) a -> f (fst ((a ;; b) s)) = f (fst (b s)).
Proof. intro Ha. rewrite fst_seq, (keeps_all_fst a s Ha). reflexivity. Qed.

Lemma skip_tail_state {A : Type} (f : State -> A) (a b : Block) s :
  keeps f b -> f (fst ((a ;; b) s)) = f (fst (a s)).
Proof. intro Hb. rewrite fst_seq. apply Hb. Qed.

Lemma skip_head_trace {A : Type} (obs : Effect -> option A) (a b : Block) s :
  keeps (fun s => s) a -> silent obs a ->
  observe obs (snd ((a ;; b) s)) = observe obs (snd (b s)).
Proof.
  intros Ha Ha'. rewrite observe_seq, Ha', (keeps_all_fst a s Ha).
  reflexivity.
Qed.

Lemma skip_tail_trace {A : Type} (obs : Effect -> option A) (a b : Block) s :
  silent obs b ->
  observe obs (snd ((a ;; b) s)) = observe obs (snd (a s)).
Proof. intros Hb. rewrite observe_seq, Hb. apply app_nil_r. Qed.

(** Descend through a statement, one combinator at a time.  A hypothesis
    [c = true] met on the way down is kept: [leaf] may use it.  In
    [silent_walk], [leaf] is tried before descending, so that it can settle
    a whole statement group. *)
Ltac keeps_walk leaf :=
  repeat first
    [ apply keeps_seq
    | apply keeps_when; intro
    | apply keeps_whenS
    | apply keeps_ifS
    | apply keeps_read; intro
    | apply keeps_for_range; intro
    | apply keeps_if
    | apply keeps_skip
    | apply keeps_call
    | apply keeps_modify; intros []; reflexivity
    | leaf ].

Ltac silent_walk leaf :=
  repeat first
    [ leaf
    | apply silent_seq
    | apply silent_when; intro
    | apply silent_whenS
    | apply silent_ifS
    | apply silent_read; intro
    | apply silent_for_range; intro
    | apply silent_if
    | apply silent_skip
    | apply silent_modify
    | apply silent_call; reflexivity ].

Lemma updates_eq {A : Type} (f : State -> A) (g g' : A -> A) (b : Block) :
  updates f g b -> (forall x, g x = g' x) -> updates f g' b.
Proof. intros H Hg s. rewrite <- Hg. apply H. Qed.

Lemma produces_eq {A : Type} (obs : Effect -> option A) (l l' : list A)
  (b : Block) :
  produces obs l b -> l = l' -> produces obs l' b.
Proof. intros H <-. exact H. Qed.

(** Opening and closing the definitions. *)
Lemma keeps_at {A : Type} (f : State -> A) (b : Block) :
  keeps f b -> forall s, f (fst (b s)) = f s.
Proof. intro H. exact H. Qed.

Lemma silent_at {A : Type} (obs : Effect -> option A) (b : Block) :
  silent obs b -> forall s, observe obs (snd (b s)) = [].
Proof. intro H. exact H. Qed.

Lemma silent_intro {A : Type} (obs : Effect -> option A) (b : Block) :
  (forall s, observe obs (snd (b s)) = []) -> silent obs b.
Proof. intro H. exact H. Qed.

Lemma updates_at {A : Type} (f : State -> A) (g : A -> A) (b : Block) :
  updates f g b -> forall s, f (fst (b s)) = g (f s).
Proof. intro H. exact H. Qed.

Lemma updates_intro {A : Type} (f : State -> A) (g : A -> A) (b : Block) :
  (forall s, f (fst (b s)) = g (f s)) -> updates f g b.
Proof. intro H. exact H. Qed.

Lemma produces_at {A : Type} (obs : Effect -> option A) (l : list A)
  (b : Block) :
  produces obs l b -> forall s, observe obs (snd (b s)) = l.
Proof. intro H. exact H. Qed.

Lemma produces_intro {A : Type} (obs : Effect -> option A) (l : list A)
  (b : Block) :
  (forall s, observe obs (snd (b s)) = l) -> produces obs l b.
Proof. intro H. exact H. Qed.

(** From here on the properties of statements are used through their laws
    only: a statement is never compared with another by running both. *)
#[global] Opaque keeps silent updates produces.

(** ** Which statement group touches what *)

Lemma general_hotkeys_pure env : keeps (fun s => s) (general_hotkeys env).
Proof. keeps_walk fail. Qed.

(** ** The frame-step machine *)

Lemma held_body env :
  frame_advance_held env ->
  HandleFrameskipHotkeys env =
    (whenS (fun s => (frame_step_delay_count s <? frame_step_delay s)
                     && frame_step_hold s)
       (modify (fun s =>
          Set_.frame_step_delay_count (frame_step_delay_count s + 1) s)) ;;
     whenS (fun s => ((frame_step_count s =? 0)
                      || (frame_step_count s =? FRAME_STEP_DELAY))
                     && negb (frame_step_hold s))
       (call DoFrameStep ;; modify (Set_.frame_step_hold true)) ;;
     whenS (fun s => frame_step_count s <? FRAME_STEP_DELAY)
       (modify (fun s => Set_.frame_step_count (frame_step_count s + 1) s) ;;
        modify (Set_.frame_step_hold false)) ;;
     whenS (fun s => (frame_step_count s =? FRAME_STEP_DELAY)
                     && frame_step_hold s
                     && (frame_step_delay s <=? frame_step_delay_count s))
       (modify (Set_.frame_step_hold false) ;;
        modify (Set_.frame_step_delay_count 0))).
Proof.
  intros (H1 & H2 & H3 & H4). unfold HandleFrameskipHotkeys.
  rewrite H1, H2, H3, H4. reflexivity.
Qed.

Ltac frame_step_eval :=
  cbv [seq whenS modify call skip fst snd app frame_step_statics
       frame_step_count frame_step_delay frame_step_delay_count
       frame_step_hold Set_.frame_step_count Set_.frame_step_delay_count
       Set_.frame_step_hold FRAME_STEP_DELAY andb orb negb].

Ltac Z_cases :=
  repeat match goal with
  | |- context [ (?a <? ?b) ] => destruct (Z.ltb_spec a b); try lia
  | |- context [ (?a <=? ?b) ] => destruct (Z.leb_spec a b); try lia
  | |- context [ (?a =? ?b) ] => destruct (Z.eqb_spec a b); try lia
  end.

Lemma held_after_step d t env s :
  0 <= d -> frame_advance_held env ->
  held_after d t s ->
  held_after d (t + 1) (fst (HandleFrameskipHotkeys env s)).
Proof.
  intros Hd Henv Hs. rewrite (held_body env Henv).
  destruct s.
  destruct Hs as [Ht Hst | k Hk Ht Hst | k p Hk Hp Ht Hst];
    unfold frame_step_statics, FRAME_STEP_DELAY in *; simpl in Hst;
    injection Hst as -> -> -> ->.
  - (* counting *)
    destruct (Z.eq_dec t 30) as [-> | Hne].
    + (* the thirty-first iteration is the head of round 0 *)
      destruct (Z.eq_dec d 0) as [-> | Hd0].
      * apply (held_round_head _ _ _ 1); [lia | unfold FRAME_STEP_DELAY; lia |].
        reflexivity.
      * apply (held_waiting _ _ _ 0 1);
          [lia | lia | unfold FRAME_STEP_DELAY; lia |].
        frame_step_eval. simpl. Z_cases. reflexivity.
    + apply held_counting; [unfold FRAME_STEP_DELAY; lia |].
      frame_step_eval. Z_cases; reflexivity.
  - (* head of a round: step now *)
    destruct (Z.eq_dec d 0) as [-> | Hd0].
    + apply (held_round_head _ _ _ (k + 1));
        [lia | unfold FRAME_STEP_DELAY; lia | reflexivity].
    + apply (held_waiting _ _ _ k 1);
        [lia | lia | unfold FRAME_STEP_DELAY; lia |].
      frame_step_eval. simpl. Z_cases. reflexivity.
  - (* waiting *)
    destruct (Z.eq_dec p d) as [-> | Hpd].
    + apply (held_round_head _ _ _ (k + 1));
        [lia | unfold FRAME_STEP_DELAY; lia |].
      frame_step_eval. simpl. Z_cases. reflexivity.
    + apply (held_waiting _ _ _ k (p + 1));
        [lia | lia | unfold FRAME_STEP_DELAY; lia |].
      frame_step_eval. simpl. Z_cases.
      replace (p + 1 - 1) with (p - 1 + 1) by lia. reflexivity.
Qed.

Lemma held_after_fires d t env s :
  0 <= d -> frame_advance_held env ->
  held_after d t s ->
  (frame_steps (snd (HandleFrameskipHotkeys env s)) = 1%nat /\ steps_on d t)
  \/ (frame_steps (snd (HandleFrameskipHotkeys env s)) = 0%nat
      /\ ~ steps_on d t).
Proof.
  intros Hd Henv Hs. rewrite (held_body env Henv).
  destruct s.
  destruct Hs as [Ht Hst | k Hk Ht Hst | k p Hk Hp Ht Hst];
    unfold frame_step_statics, FRAME_STEP_DELAY in *; simpl in Hst;
    injection Hst as -> -> -> ->.
  - destruct (Z.eq_dec t 0) as [-> | H0]; [| destruct (Z.eq_dec t 30) as [-> | H30]].
    + left. split; [| left; reflexivity].
      unfold frame_steps. frame_step_eval. simpl. Z_cases; reflexivity.
    + left. split.
      * unfold frame_steps. frame_step_eval. simpl. Z_cases; reflexivity.
      * right. exists 0. unfold FRAME_STEP_DELAY. lia.
    + right. split.
      * unfold frame_steps. frame_step_eval. simpl. Z_cases; reflexivity.
      * intros [-> | (k & Hk & Hk')]; [lia |].
        unfold FRAME_STEP_DELAY in Hk'. nia.
  - left. split.
    + unfold frame_steps. frame_step_eval. simpl. Z_cases; reflexivity.
    + right. exists k. unfold FRAME_STEP_DELAY. lia.
  - right. split.
    + unfold frame_steps. frame_step_eval. simpl. Z_cases; reflexivity.
    + intros [H0 | (k' & Hk' & Heq)]; [nia |].
      unfold FRAME_STEP_DELAY in Heq.
      assert (k' <= k \/ k + 1 <= k') as [Hle | Hge] by lia; nia.
Qed.

(** ** One iteration of the loop, case by case *)

Lemma Run_tick_processing env :
  processing env ->
  Run_tick env =
    (call (SleepCurrentThread (1000 / 60)) ;;
     when (CoreState_eqb (GetState env) Uninitialized
           || CoreState_eqb (GetState env) Paused)
       (call UpdateInput) ;;
     call GetStatus ;;
     gated_hotkeys env ;; ungated_hotkeys env).
Proof.
  intros (He & Hs & Hr). unfold Run_tick. rewrite He, Hr.
  destruct (GetState env); try congruence; reflexivity.
Qed.

Lemma Run_tick_stopping env :
  GetState env = Stopping ->
  Run_tick env =
    (call (SleepCurrentThread (1000 / 60)) ;;
     when (IsEnabled env) (ungated_hotkeys env)).
Proof.
  intros Hs. unfold Run_tick. rewrite Hs.
  destruct (IsEnabled env); reflexivity.
Qed.

Lemma Run_tick_disabled env :
  IsEnabled env = false ->
  Run_tick env = call (SleepCurrentThread (1000 / 60)).
Proof. intros He. unfold Run_tick. rewrite He. reflexivity. Qed.

Lemma Run_tick_not_running env :
  IsEnabled env = true -> GetState env <> Stopping ->
  IsRunningAndStarted env = false ->
  Run_tick env =
    (call (SleepCurrentThread (1000 / 60)) ;;
     when (CoreState_eqb (GetState env) Uninitialized
           || CoreState_eqb (GetState env) Paused)
       (call UpdateInput) ;;
     call GetStatus).
Proof.
  intros He Hs Hr. unfold Run_tick. rewrite He, Hr.
  destruct (GetState env); try congruence; reflexivity.
Qed.

(** The statements of the loop body outside [HandleFrameskipHotkeys]
    neither write its statics nor step a frame. *)
Lemma Run_tick_frame_step env s :
  processing env ->
  frame_step_statics (fst (Run_tick env s))
  = frame_step_statics (fst (HandleFrameskipHotkeys env s))
  /\ frame_steps (snd (Run_tick env s))
     = frame_steps (snd (HandleFrameskipHotkeys env s)).
Proof.
  intro Hp. rewrite (Run_tick_processing env Hp). split.
  - do 3 (rewrite (skip_head_state frame_step_statics)
            by keeps_walk fail).
    rewrite (skip_tail_state frame_step_statics) by keeps_walk fail.
    unfold gated_hotkeys.
    rewrite (skip_head_state frame_step_statics) by keeps_walk fail.
    rewrite (skip_tail_state frame_step_statics) by keeps_walk fail.
    reflexivity.
  - unfold frame_steps. f_equal.
    do 3 (rewrite (skip_head_trace frame_step_of)
            by (keeps_walk fail || silent_walk fail)).
    rewrite (skip_tail_trace frame_step_of) by silent_walk fail.
    unfold gated_hotkeys.
    rewrite (skip_head_trace frame_step_of)
      by (keeps_walk fail || silent_walk fail).
    rewrite (skip_tail_trace frame_step_of) by silent_walk fail.
    reflexivity.
Qed.

Lemma held_after_statics d t s s' :
  frame_step_statics s' = frame_step_statics s ->
  held_after d t s -> held_after d t s'.
Proof.
  intros Heq [Ht Hst | k Hk Ht Hst | k p Hk Hp Ht Hst];
    rewrite <- Heq in Hst.
  - apply held_counting; assumption.
  - apply (held_round_head _ _ _ k); assumption.
  - apply (held_waiting _ _ _ k p); assumption.
Qed.

Lemma held_run d envs :
  0 <= d -> Forall holding envs ->
  forall s t0, held_after d t0 s ->
  forall t : nat, (t < List.length envs)%nat ->
    (frame_steps (nth t (tick_traces envs s) []) = 1%nat
     /\ steps_on d (t0 + Z.of_nat t))
    \/ (frame_steps (nth t (tick_traces envs s) []) = 0%nat
        /\ ~ steps_on d (t0 + Z.of_nat t)).
Proof.
  intros Hd Hall. induction Hall as [| env rest (Hgo & Hp & Hk) _ IH];
    intros s t0 Hs t Ht; simpl in Ht; [lia |].
  change (tick_traces (env :: rest) s)
    with (if m_stop_requested env then []
          else snd (Run_tick env s) :: tick_traces rest (fst (Run_tick env s))).
  rewrite Hgo.
  destruct (Run_tick_frame_step env s Hp) as [Hst Hfs].
  destruct t as [| t']; cbn [nth].
  - rewrite Hfs, Z.add_0_r. apply held_after_fires; assumption.
  - replace (t0 + Z.of_nat (S t')) with (t0 + 1 + Z.of_nat t') by lia.
    apply IH; [| lia].
    apply (held_after_statics d _ (fst (HandleFrameskipHotkeys env s)));
      [assumption |].
    apply held_after_step; assumption.
Qed.

(** ** Walking a sequence for one field or one kind of call *)

(** [target] settles the statement group of interest; every other group
    must keep the field. *)
Ltac updates_walk target :=
  repeat first
    [ target
    | eapply updates_seq
    | apply updates_keeps; solve [keeps_walk fail] ].

Ltac produces_walk target leaf :=
  repeat first
    [ target
    | eapply produces_seq
    | apply produces_silent; solve [silent_walk leaf] ].

(** ** Emulation speed *)

Lemma emulation_speed_updates env :
  updates m_EmulationSpeed (speed_update env) (emulation_speed_hotkeys env).
Proof.
  apply updates_intro. intros [ ]. unfold emulation_speed_hotkeys, speed_update, show_msg.
  destruct (IsHotkey env HK_DECREASE_EMULATION_SPEED false),
           (IsHotkey env HK_INCREASE_EMULATION_SPEED false),
           (g_renderer env); reflexivity.
Qed.

Lemma Run_tick_speed env :
  processing env ->
  updates m_EmulationSpeed (speed_update env) (Run_tick env).
Proof.
  intro Hp. rewrite (Run_tick_processing env Hp). unfold gated_hotkeys.
  eapply updates_eq.
  - updates_walk ltac:(apply emulation_speed_updates).
  - intro x. reflexivity.
Qed.

(** ** Wii Remote connection *)

Lemma wiimote_produces env :
  produces connect_of (if bWii env then expected_connect env else [])
    (wiimote_hotkeys env).
Proof.
  apply produces_intro. intro s.
  unfold wiimote_hotkeys, wiimote_id, expected_connect,
    highest_connect.
  destruct (bWii env); [| reflexivity].
  destruct (IsHotkey env HK_WIIMOTE1_CONNECT false),
           (IsHotkey env HK_WIIMOTE2_CONNECT false),
           (IsHotkey env HK_WIIMOTE3_CONNECT false),
           (IsHotkey env HK_WIIMOTE4_CONNECT false),
           (IsHotkey env HK_BALANCEBOARD_CONNECT false); reflexivity.
Qed.

Lemma Run_tick_connect env :
  processing env ->
  produces connect_of (if bWii env then expected_connect env else [])
    (Run_tick env).
Proof.
  intro Hp. rewrite (Run_tick_processing env Hp). unfold gated_hotkeys.
  eapply produces_eq.
  - produces_walk ltac:(apply wiimote_produces) fail.
  - simpl. rewrite ?app_nil_r. reflexivity.
Qed.

Lemma Run_tick_connect_any env s :
  connect_commands (snd (Run_tick env s)) = []
  \/ (processing env
      /\ connect_commands (snd (Run_tick env s))
         = if bWii env then expected_connect env else []).
Proof.
  destruct (IsEnabled env) eqn:He.
  - destruct (CoreState_eqb (GetState env) Stopping) eqn:Hs.
    + left. assert (Hst : GetState env = Stopping)
        by (destruct (GetState env); try discriminate; reflexivity).
      rewrite (Run_tick_stopping env Hst), He.
      apply silent_at. silent_walk fail.
    + assert (Hst : GetState env <> Stopping)
        by (intro H; rewrite H in Hs; discriminate).
      destruct (IsRunningAndStarted env) eqn:Hr.
      * right. assert (Hp : processing env) by (repeat split; assumption).
        split; [exact Hp | apply (produces_at _ _ _ (Run_tick_connect env Hp))].
      * left. rewrite (Run_tick_not_running env He Hst Hr).
        apply silent_at. silent_walk fail.
  - left. rewrite (Run_tick_disabled env He). reflexivity.
Qed.

(** ** Statements whose calls all satisfy a property *)

Section CallsOnly.
Context (P : Effect -> Prop).

Lemma calls_only_skip : calls_only P skip.
Proof. intro s. constructor. Qed.

Lemma calls_only_call (e : Effect) : P e -> calls_only P (call e).
Proof. intros H s. repeat constructor. exact H. Qed.

Lemma calls_only_modify (g : State -> State) : calls_only P (modify g).
Proof. intro s. constructor. Qed.

Lemma calls_only_seq (a b : Block) :
  calls_only P a -> calls_only P b -> calls_only P (a ;; b).
Proof.
  intros Ha Hb s. rewrite snd_seq. apply Forall_app. split; [apply Ha | apply Hb].
Qed.

Lemma calls_only_when (c : bool) (b : Block) :
  (c = true -> calls_only P b) -> calls_only P (when c b).
Proof. destruct c; intro H; [apply H; reflexivity | apply calls_only_skip]. Qed.

Lemma calls_only_read {B : Type} (g : State -> B) (k : B -> Block) :
  (forall x, calls_only P (k x)) -> calls_only P (read g k).
Proof. intros H s. apply H. Qed.

Lemma calls_only_for_range (n first : nat) (body : nat -> Block) :
  (forall i, calls_only P (body i)) -> calls_only P (for_range n first body).
Proof.
  intro H. revert first.
  induction n as [|n IH]; intro first; simpl.
  - apply calls_only_skip.
  - apply calls_only_seq; [apply H | apply IH].
Qed.

End CallsOnly.

Ltac calls_walk leaf :=
  repeat first
    [ apply calls_only_seq
    | apply calls_only_when; intro
    | apply calls_only_read; intro
    | apply calls_only_for_range; intro
    | apply calls_only_skip
    | apply calls_only_modify
    | apply calls_only_call; leaf ].

Lemma signals_of_slot_calls (t : list Effect) :
  Forall slot_signal_or_call t -> Forall is_slot_signal (signals t).
Proof.
  induction 1 as [| e t He _ IH]; [constructor |].
  unfold signals, observe in *. simpl.
  unfold slot_signal_or_call in He.
  destruct (signal_of e); simpl; [constructor; assumption | assumption].
Qed.

(** ** A sample in which a single hotkey is asserted *)

Lemma only_asserted_true env k held :
  only_asserted env k -> IsHotkey env k held = true.
Proof. intro H. apply H. reflexivity. Qed.

Lemma only_asserted_false env k k' held :
  only_asserted env k -> k' <> k -> IsHotkey env k' held = false.
Proof.
  intros H Hne. destruct (IsHotkey env k' held) eqn:E; [| reflexivity].
  apply H in E. contradiction.
Qed.

Lemma only_asserted_only k env :
  IsHotkey env = only k -> only_asserted env k.
Proof.
  intros Heq k' held. rewrite Heq. unfold only.
  destruct (Hotkey_eq_dec k' k); split; congruence.
Qed.

(** Replace every query in the goal by its answer. *)
Ltac eval_keys H :=
  repeat match goal with
  | |- context [ IsHotkey ?env ?k ?h ] =>
      first [ rewrite (only_asserted_true env k h H)
            | rewrite (only_asserted_false env _ k h H)
                by (discriminate || congruence) ]
  end.

(** A key found asserted that is not the single asserted one. *)
Ltac key_absurd Honly :=
  exfalso;
  match goal with
  | H : IsHotkey _ _ _ = true |- _ => apply Honly in H; discriminate H
  end.

(** ** Save-state slots *)

Lemma savestate_slot_produces env a i j :
  only_asserted env (slot_hotkey a i) ->
  produces signal_of
    (if Nat.eqb j i then [slot_signal a (Z.of_nat j + 1)] else [])
    (savestate_slot env j).
Proof.
  intros H. apply produces_intro. intro s. unfold savestate_slot.
  destruct (Nat.eqb_spec j i) as [-> | Hne];
    destruct a; simpl in H; eval_keys H; reflexivity.
Qed.

Lemma savestate_loop_produces env a i n :
  only_asserted env (slot_hotkey a i) ->
  forall first,
  produces signal_of
    (if ((first <=? i) && (i <? first + n))%nat
     then [slot_signal a (Z.of_nat i + 1)] else [])
    (for_range n first (savestate_slot env)).
Proof.
  intro H. induction n as [| n IH]; intro first; cbn [for_range].
  - eapply produces_eq.
    + apply (produces_silent signal_of skip (silent_skip signal_of)).
    + destruct (Nat.leb_spec first i), (Nat.ltb_spec i (first + 0));
        simpl; try reflexivity; lia.
  - eapply produces_eq.
    + apply produces_seq;
        [apply (savestate_slot_produces env a i first H) | apply IH].
    + destruct (Nat.eqb_spec first i) as [-> | Hne];
        repeat match goal with
        | |- context [ (?x <=? ?y)%nat ] => destruct (Nat.leb_spec x y)
        | |- context [ (?x <? ?y)%nat ] => destruct (Nat.ltb_spec x y)
        end; simpl; try reflexivity; lia.
Qed.

Lemma wiimote_quiet env :
  no_connect_asserted env -> silent signal_of (wiimote_hotkeys env).
Proof.
  intros (H1 & H2 & H3 & H4 & H5). apply silent_intro.
  intro s. unfold wiimote_hotkeys, wiimote_id.
  rewrite H1, H2, H3, H4, H5. destruct (bWii env); reflexivity.
Qed.

Lemma slot_key_no_connect env a i :
  only_asserted env (slot_hotkey a i) -> no_connect_asserted env.
Proof.
  intro H. unfold no_connect_asserted.
  destruct a; simpl in H; eval_keys H; repeat split.
Qed.

Lemma gated_quiet_on_slot_key env a i :
  only_asserted env (slot_hotkey a i) -> silent signal_of (gated_hotkeys env).
Proof.
  intro H. pose proof (slot_key_no_connect env a i H) as Hw.
  destruct a; simpl in H;
    silent_walk ltac:(first [ apply (wiimote_quiet env Hw) | key_absurd H ]).
Qed.

Lemma ungated_on_slot_key env a i :
  (i < NUM_STATES)%nat ->
  only_asserted env (slot_hotkey a i) ->
  produces signal_of [slot_signal a (Z.of_nat i + 1)] (ungated_hotkeys env).
Proof.
  intros Hi H. unfold ungated_hotkeys, savestate_hotkeys.
  eapply produces_eq.
  - produces_walk
      ltac:(apply (savestate_loop_produces env a i NUM_STATES H 0%nat))
      ltac:(destruct a; simpl in H; key_absurd H).
  - simpl. rewrite ?app_nil_r.
    destruct (Nat.ltb_spec i NUM_STATES); [reflexivity | lia].
Qed.

Lemma Run_tick_on_slot_key env a i :
  (i < NUM_STATES)%nat ->
  reaches_slot_loop env ->
  only_asserted env (slot_hotkey a i) ->
  produces signal_of [slot_signal a (Z.of_nat i + 1)] (Run_tick env).
Proof.
  intros Hi (He & Hgo) H.
  pose proof (ungated_on_slot_key env a i Hi H) as Hu.
  destruct (CoreState_eqb (GetState env) Stopping) eqn:Hs.
  - assert (Hst : GetState env = Stopping)
      by (destruct (GetState env); try discriminate; reflexivity).
    rewrite (Run_tick_stopping env Hst), He.
    eapply produces_eq; [produces_walk ltac:(apply Hu) fail | reflexivity].
  - assert (Hst : GetState env <> Stopping)
      by (intro E; rewrite E in Hs; discriminate).
    destruct Hgo as [Hgo | Hr]; [contradiction |].
    rewrite (Run_tick_processing env (conj He (conj Hst Hr))).
    eapply produces_eq.
    + produces_walk
        ltac:(first [ apply Hu
                    | apply produces_silent;
                      apply (gated_quiet_on_slot_key env a i H) ])
        fail.
    + reflexivity.
Qed.

(** ** Stereoscopy depth and convergence *)

Lemma stereo_depth_updates env :
  updates GFX_STEREO_DEPTH (depth_update env) (stereo_depth_hotkeys env).
Proof.
  apply updates_intro. intros [ ]. unfold stereo_depth_hotkeys, depth_update.
  destruct (IsHotkey env HK_DECREASE_DEPTH true),
           (IsHotkey env HK_INCREASE_DEPTH true); reflexivity.
Qed.

Lemma stereo_convergence_updates env :
  updates GFX_STEREO_CONVERGENCE (convergence_update env)
    (stereo_convergence_hotkeys env).
Proof.
  apply updates_intro. intros [ ].
  unfold stereo_convergence_hotkeys, convergence_update.
  destruct (IsHotkey env HK_DECREASE_CONVERGENCE true),
           (IsHotkey env HK_INCREASE_CONVERGENCE true); reflexivity.
Qed.

Lemma Run_tick_depth env :
  processing env ->
  updates GFX_STEREO_DEPTH (depth_update env) (Run_tick env).
Proof.
  intro Hp. rewrite (Run_tick_processing env Hp).
  unfold gated_hotkeys, ungated_hotkeys.
  eapply updates_eq.
  - updates_walk ltac:(apply stereo_depth_updates).
  - intro x. reflexivity.
Qed.

Lemma Run_tick_convergence env :
  processing env ->
  updates GFX_STEREO_CONVERGENCE (convergence_update env) (Run_tick env).
Proof.
  intro Hp. rewrite (Run_tick_processing env Hp).
  unfold gated_hotkeys, ungated_hotkeys.
  eapply updates_eq.
  - updates_walk ltac:(apply stereo_convergence_updates).
  - intro x. reflexivity.
Qed.

(** Held alone, the decrease-depth key sends any depth of at least 1
    straight to 0. *)
Lemma depth_decrease_jumps_to_zero env s :
  processing env ->
  IsHotkey env HK_DECREASE_DEPTH true = true ->
  IsHotkey env HK_INCREASE_DEPTH true = false ->
  1 <= GFX_STEREO_DEPTH s ->
  GFX_STEREO_DEPTH (fst (Run_tick env s)) = 0.
Proof.
  intros Hp Hd Hi Hv. rewrite (updates_at _ _ _ (Run_tick_depth env Hp) s).
  unfold depth_update. rewrite Hd, Hi. lia.
Qed.

(** The three sibling branches do clamp a value of the range to the
    range, one step away. *)
Lemma depth_increase_clamped env s :
  processing env ->
  IsHotkey env HK_INCREASE_DEPTH true = true ->
  0 <= GFX_STEREO_DEPTH s <= 100 ->
  GFX_STEREO_DEPTH (fst (Run_tick env s))
  = Z.max 0 (Z.min (GFX_STEREO_DEPTH s + 1) 100).
Proof.
  intros Hp Hi Hv. rewrite (updates_at _ _ _ (Run_tick_depth env Hp) s).
  unfold depth_update. rewrite Hi. lia.
Qed.

Lemma convergence_step_clamped env s :
  processing env ->
  0 <= GFX_STEREO_CONVERGENCE s <= 500 ->
  (IsHotkey env HK_INCREASE_CONVERGENCE true = true ->
   GFX_STEREO_CONVERGENCE (fst (Run_tick env s))
   = Z.max 0 (Z.min (GFX_STEREO_CONVERGENCE s + 5) 500))
  /\ (IsHotkey env HK_INCREASE_CONVERGENCE true = false ->
      IsHotkey env HK_DECREASE_CONVERGENCE true = true ->
      GFX_STEREO_CONVERGENCE (fst (Run_tick env s))
      = Z.max 0 (Z.min (GFX_STEREO_CONVERGENCE s - 5) 500)).
Proof.
  intros Hp Hv. rewrite (updates_at _ _ _ (Run_tick_convergence env Hp) s).
  unfold convergence_update.
  split; [intros -> | intros -> ->]; lia.
Qed.

(** ** Stereoscopy modes *)

(** Every case of keys, current mode and shader test, by evaluation. *)
Ltac stereo_cases :=
  apply updates_intro; intros [ ];
  repeat match goal with
  | |- context [ IsHotkey ?e ?k ?h ] => destruct (IsHotkey e k h)
  end;
  match goal with m : StereoMode |- _ => destruct m end;
  match goal with
  | sh : string |- _ =>
      let E := fresh "E" in
      destruct (String.eqb sh DUBOIS_ALGORITHM_SHADER) eqn:E;
      unfold whenS, ifS, seq, modify, skip, when;
      cbn -[String.eqb DUBOIS_ALGORITHM_SHADER];
      rewrite ?E; reflexivity
  end.

Lemma sbs_tab_updates env :
  updates stereo_view (sbs_tab_update env) (stereo_sbs_tab_hotkeys env).
Proof.
  unfold stereo_sbs_tab_hotkeys, sbs_tab_update, stereo_view, clear_dubois,
    stereo_mode_is_not, shader_is_dubois.
  stereo_cases.
Qed.

Lemma anaglyph_updates env :
  updates stereo_view (anaglyph_update env) (stereo_anaglyph_hotkey env).
Proof.
  unfold stereo_anaglyph_hotkey, anaglyph_update, stereo_view,
    stereo_mode_is_not.
  stereo_cases.
Qed.

Lemma vision3d_updates env :
  updates stereo_view (vision3d_update env) (stereo_3dvision_hotkey env).
Proof.
  unfold stereo_3dvision_hotkey, vision3d_update, stereo_view, clear_dubois,
    stereo_mode_is_not, shader_is_dubois.
  stereo_cases.
Qed.

Lemma Run_tick_stereo env :
  processing env ->
  updates stereo_view (stereo_update env) (Run_tick env).
Proof.
  intro Hp. rewrite (Run_tick_processing env Hp).
  unfold gated_hotkeys, ungated_hotkeys, stereoscopy_hotkeys.
  eapply updates_eq.
  - updates_walk
      ltac:(first [ apply sbs_tab_updates | apply anaglyph_updates
                  | apply vision3d_updates ]).
  - intro x. reflexivity.
Qed.

(** The members whose own branch tests for them are switched off by their
    own action; the anaglyph branch also clears its shader. *)
Lemma stereo_toggle_off_siblings env s :
  processing env ->
  (only_asserted env HK_TOGGLE_STEREO_SBS -> GFX_STEREO_MODE s = SBS ->
   stereo_view (fst (Run_tick env s)) = (Off, GFX_ENHANCE_POST_SHADER s))
  /\ (only_asserted env HK_TOGGLE_STEREO_ANAGLYPH ->
      GFX_STEREO_MODE s = Anaglyph ->
      stereo_view (fst (Run_tick env s)) = (Off, EmptyString))
  /\ (only_asserted env HK_TOGGLE_STEREO_3DVISION ->
      GFX_STEREO_MODE s = Nvidia3DVision ->
      stereo_view (fst (Run_tick env s)) = (Off, GFX_ENHANCE_POST_SHADER s)).
Proof.
  intro Hp. rewrite (updates_at _ _ _ (Run_tick_stereo env Hp) s).
  unfold stereo_update, vision3d_update, anaglyph_update, sbs_tab_update,
    stereo_view.
  repeat split; intros H Hm; eval_keys H; rewrite Hm; reflexivity.
Qed.

(** The top-and-bottom member has no test of its own: its action, fired
    while it is the current mode, leaves it the current mode. *)
Lemma stereo_tab_not_toggled_off env s :
  processing env ->
  only_asserted env HK_TOGGLE_STEREO_TAB -> GFX_STEREO_MODE s = TAB ->
  GFX_STEREO_MODE (fst (Run_tick env s)) = TAB.
Proof.
  intros Hp H Hm.
  change (fst (stereo_view (fst (Run_tick env s))) = TAB).
  rewrite (updates_at _ _ _ (Run_tick_stereo env Hp) s).
  unfold stereo_update, vision3d_update, anaglyph_update, sbs_tab_update,
    stereo_view.
  eval_keys H. rewrite Hm. reflexivity.
Qed.

(** ** Debugging hotkeys *)

Lemma set_pc_emits_skip env s :
  processing env -> bEnableDebugging env = true ->
  only_asserted env HK_SET_PC ->
  signals (snd (Run_tick env s)) = [Skip].
Proof.
  intros Hp Hdbg H. rewrite (Run_tick_processing env Hp).
  assert (Hw : no_connect_asserted env)
    by (unfold no_connect_asserted; eval_keys H; repeat split).
  assert (Hd : produces signal_of [Skip] (debugging_hotkeys env)).
  { apply produces_intro. intro s'.
    unfold debugging_hotkeys, CheckDebuggingHotkeys.
    rewrite Hdbg. eval_keys H. reflexivity. }
  unfold gated_hotkeys.
  apply (produces_at signal_of [Skip]).
  eapply (produces_eq signal_of).
  - produces_walk
      ltac:(first [ apply Hd
                  | apply produces_silent; apply (wiimote_quiet env Hw) ])
      ltac:(key_absurd H).
  - reflexivity.
Qed.

(** ** The loop *)

(** The trace of a run is the traces of its iterations, one after the
    other. *)
Lemma Run_trace envs :
  forall s, snd (Run envs s) = List.concat (tick_traces envs s).
Proof.
  induction envs as [| env rest IH]; intro s; cbn [Run tick_traces].
  - reflexivity.
  - destruct (m_stop_requested env); [reflexivity |].
    rewrite snd_seq, IH. reflexivity.
Qed.

(** The loop ends at the first iteration that finds the stop flag set:
    what would have been observed from then on plays no part. *)
Lemma Run_stops_at_flag before env rest s :
  m_stop_requested env = true ->
  Run (before ++ env :: rest) s = Run (before ++ [env]) s.
Proof.
  intro Hstop. revert s.
  induction before as [| e before IH]; intro s; cbn [Run app].
  - rewrite Hstop. reflexivity.
  - destruct (m_stop_requested e); [reflexivity |].
    unfold seq. rewrite IH. reflexivity.
Qed.

(** ** Runs on concrete inputs *)

(** The frame steps of the first 36 iterations with the key held and the
    delay at its initial value 1: iteration 0, then 30, 32, 34. *)
Example held_36_iterations :
  map frame_steps
    (tick_traces (repeat (running_env (only HK_FRAME_ADVANCE)) 36)
                 initial_state)
  = [1; 0; 0; 0; 0; 0; 0; 0; 0; 0; 0; 0; 0; 0; 0; 0; 0; 0; 0; 0; 0; 0; 0; 0;
     0; 0; 0; 0; 0; 0; 1; 0; 1; 0; 1; 0]%nat.
Proof. vm_compute. reflexivity. Qed.

(** Releasing the key in the middle of the count puts the statics back to
    their initial values. *)
Example release_resets_statics :
  frame_step_statics
    (fst (Run (repeat (running_env (only HK_FRAME_ADVANCE)) 12
               ++ [running_env (fun _ _ => false)])
              initial_state))
  = (0, 1, 0, false).
Proof. vm_compute. reflexivity. Qed.

(** Wii Remote 2 and the Balance Board asserted together: one command,
    for the Balance Board. *)
Example connect_two_keys :
  connect_commands
    (snd (Run_tick (running_env two_connect_keys) initial_state)) = [4].
Proof. vm_compute. reflexivity. Qed.

(** Increasing the emulation speed from 0.9 lands in the band and snaps
    to 1.0. *)
Example increase_into_band_snaps :
  m_EmulationSpeed
    (fst (Run_tick (running_env (only HK_INCREASE_EMULATION_SPEED))
                   (Set_.m_EmulationSpeed 0.9%float initial_state)))
  = 1.0%float.
Proof. vm_compute. reflexivity. Qed.

(** The anaglyph action fired twice from off: on with the shader, then off
    with the shader cleared. *)
Example anaglyph_twice :
  stereo_view
    (fst (Run (repeat (running_env (only HK_TOGGLE_STEREO_ANAGLYPH)) 1)
              initial_state))
  = (Anaglyph, DUBOIS_ALGORITHM_SHADER)
  /\ stereo_view
       (fst (Run (repeat (running_env (only HK_TOGGLE_STEREO_ANAGLYPH)) 2)
                 initial_state))
     = (Off, EmptyString).
Proof. split; vm_compute; reflexivity. Qed.

(** * The claims *)

(** ** C1 *)

(** C1, as stated, does not hold: with the delay at 1 (the value the
    program starts with) and the frame-advance key held from the initial
    state, the first window of 30 + 1 iterations contains two frame steps,
    not one. *)
Lemma frame_step_not_every_30_plus_d :
  ~ (forall d : Z, 0 <= d <= 60 ->
     forall n : nat,
       one_step_every (30 + Z.to_nat d)
         (tick_traces (repeat (running_env (only HK_FRAME_ADVANCE)) n)
                      (with_delay d))).
Proof.
  intro H.
  specialize (H 1 ltac:(lia) 31%nat 0%nat).
  assert (Hlen : ((0 + 1) * (30 + Z.to_nat 1)
                  <= List.length
                       (tick_traces
                          (repeat (running_env (only HK_FRAME_ADVANCE)) 31)
                          (with_delay 1)))%nat)
    by (vm_compute; apply le_n).
  specialize (H Hlen). vm_compute in H. discriminate H.
Qed.

(** C1, amended: for every delay setting d in [0,60], with the frame-advance
    key held on every iteration from the initial frame-step state, an
    iteration steps a frame exactly when it is the first one or, from the
    thirty-first on, one of every d + 1 (iteration 0, then 30, 30 + (d + 1),
    30 + 2 (d + 1), ...); no iteration steps more than once. *)
Theorem frame_step_hold_schedule (d : Z) (envs : list Env) (s : State)
  (t : nat) :
  0 <= d <= 60 ->
  Forall holding envs ->
  frame_step_statics s = (0, d, 0, false) ->
  (t < List.length envs)%nat ->
  (frame_steps (nth t (tick_traces envs s) []) = 1%nat
   <-> steps_on d (Z.of_nat t))
  /\ (frame_steps (nth t (tick_traces envs s) []) <= 1)%nat.
Proof.
  intros Hd Hall Hs Ht.
  assert (H0 : held_after d 0 s)
    by (apply held_counting; [unfold FRAME_STEP_DELAY; lia | exact Hs]).
  destruct (held_run d envs ltac:(lia) Hall s 0 H0 t Ht)
    as [(H1 & Hon) | (H1 & Hoff)]; rewrite Z.add_0_l in *; rewrite H1.
  - split; [split; auto | lia].
  - split; [split; [discriminate | contradiction] | lia].
Qed.

Lemma frame_step_hold_schedule_witness :
  (frame_steps
     (nth 32 (tick_traces (repeat (running_env (only HK_FRAME_ADVANCE)) 40)
                          (with_delay 1)) []) = 1%nat
   <-> steps_on 1 (Z.of_nat 32))
  /\ (frame_steps
        (nth 32 (tick_traces (repeat (running_env (only HK_FRAME_ADVANCE)) 40)
                             (with_delay 1)) []) <= 1)%nat.
Proof.
  apply (frame_step_hold_schedule 1
           (repeat (running_env (only HK_FRAME_ADVANCE)) 40)
           (with_delay 1) 32).
  - lia.
  - repeat constructor; discriminate.
  - reflexivity.
  - simpl. lia.
Defined.

(** ** C2 *)

(** C2, as stated, does not hold: decreasing once from 1.0 does not yield
    1.0. *)
Lemma decrease_from_one_is_not_one :
  m_EmulationSpeed
    (fst (Run_tick (running_env (only HK_DECREASE_EMULATION_SPEED))
                   initial_state))
  <> 1.0%float.
Proof.
  intro H.
  apply (f_equal (fun x => PrimFloat.eqb x 1.0%float)) in H.
  vm_compute in H. discriminate H.
Qed.

(** C2, amended: with the emulation speed at 1.0, an iteration on which the
    decrease action fires (and the increase action does not) leaves it at
    0.9, the raw result of 1.0 - 0.1: that value is above 0 and below the
    band [0.95, 1.05], so no snap applies. *)
Theorem decrease_from_one_is_raw (env : Env) (s : State) :
  processing env ->
  IsHotkey env HK_DECREASE_EMULATION_SPEED false = true ->
  IsHotkey env HK_INCREASE_EMULATION_SPEED false = false ->
  m_EmulationSpeed s = 1.0%float ->
  m_EmulationSpeed (fst (Run_tick env s)) = 0.9%float
  /\ 0.9%float = PrimFloat.sub 1.0%float 0.1%float
  /\ ~ at_most_zero 0.9%float /\ ~ in_snap_band 0.9%float.
Proof.
  intros Hp Hd Hi Hv. rewrite (updates_at _ _ _ (Run_tick_speed env Hp) s).
  unfold speed_update. rewrite Hd, Hi, Hv.
  repeat split; try (vm_compute; reflexivity).
  - unfold at_most_zero. vm_compute. discriminate.
  - unfold in_snap_band. vm_compute. intros [H _]. discriminate H.
Qed.

Lemma decrease_from_one_is_raw_witness :
  m_EmulationSpeed
    (fst (Run_tick (running_env (only HK_DECREASE_EMULATION_SPEED))
                   initial_state)) = 0.9%float
  /\ 0.9%float = PrimFloat.sub 1.0%float 0.1%float
  /\ ~ at_most_zero 0.9%float /\ ~ in_snap_band 0.9%float.
Proof.
  apply (decrease_from_one_is_raw
           (running_env (only HK_DECREASE_EMULATION_SPEED)) initial_state).
  - repeat split; [discriminate].
  - reflexivity.
  - reflexivity.
  - reflexivity.
Defined.

(** ** C3 *)

(** C3: for every current emulation speed v, an iteration on which only the
    decrease action of the two fires yields 1.0 when v - 0.1 <= 0 or
    0.95 <= v - 0.1 <= 1.05 and v - 0.1 otherwise; one on which only the
    increase action fires yields 1.0 when 0.95 <= v + 0.1 <= 1.05 and
    v + 0.1 otherwise. *)
Theorem emulation_speed_snap (env : Env) (s : State) :
  processing env ->
  let v := m_EmulationSpeed s in
  let v' := m_EmulationSpeed (fst (Run_tick env s)) in
  (IsHotkey env HK_DECREASE_EMULATION_SPEED false = true ->
   IsHotkey env HK_INCREASE_EMULATION_SPEED false = false ->
   let x := PrimFloat.sub v 0.1%float in
   (at_most_zero x \/ in_snap_band x -> v' = 1.0%float)
   /\ (~ (at_most_zero x \/ in_snap_band x) -> v' = x))
  /\
  (IsHotkey env HK_DECREASE_EMULATION_SPEED false = false ->
   IsHotkey env HK_INCREASE_EMULATION_SPEED false = true ->
   let x := PrimFloat.add v 0.1%float in
   (in_snap_band x -> v' = 1.0%float)
   /\ (~ in_snap_band x -> v' = x)).
Proof.
  intros Hp v v'. subst v v'.
  rewrite (updates_at _ _ _ (Run_tick_speed env Hp) s).
  unfold speed_update, at_most_zero, in_snap_band.
  split; intros Hd Hi; rewrite Hd, Hi; cbv zeta.
  - unfold decrease_emulation_speed, fgeb.
    destruct (PrimFloat.leb (PrimFloat.sub (m_EmulationSpeed s) 0.1) 0),
             (PrimFloat.leb 0.95 (PrimFloat.sub (m_EmulationSpeed s) 0.1)),
             (PrimFloat.leb (PrimFloat.sub (m_EmulationSpeed s) 0.1) 1.05);
      simpl; split; intro H; try reflexivity;
      try (exfalso; apply H; tauto);
      try (destruct H as [H | [H1 H2]]; discriminate).
  - unfold increase_emulation_speed, fgeb.
    destruct (PrimFloat.leb 0.95 (PrimFloat.add (m_EmulationSpeed s) 0.1)),
             (PrimFloat.leb (PrimFloat.add (m_EmulationSpeed s) 0.1) 1.05);
      simpl; split; intro H; try reflexivity;
      try (exfalso; apply H; tauto);
      try (destruct H as [H1 H2]; discriminate).
Qed.

Lemma emulation_speed_snap_witness :
  let env := running_env (only HK_DECREASE_EMULATION_SPEED) in
  let v := m_EmulationSpeed initial_state in
  let v' := m_EmulationSpeed (fst (Run_tick env initial_state)) in
  (IsHotkey env HK_DECREASE_EMULATION_SPEED false = true ->
   IsHotkey env HK_INCREASE_EMULATION_SPEED false = false ->
   let x := PrimFloat.sub v 0.1%float in
   (at_most_zero x \/ in_snap_band x -> v' = 1.0%float)
   /\ (~ (at_most_zero x \/ in_snap_band x) -> v' = x))
  /\
  (IsHotkey env HK_DECREASE_EMULATION_SPEED false = false ->
   IsHotkey env HK_INCREASE_EMULATION_SPEED false = true ->
   let x := PrimFloat.add v 0.1%float in
   (in_snap_band x -> v' = 1.0%float)
   /\ (~ in_snap_band x -> v' = x)).
Proof.
  apply (emulation_speed_snap
           (running_env (only HK_DECREASE_EMULATION_SPEED)) initial_state).
  repeat split; [discriminate].
Defined.

(** ** C4 *)

(** C4 fails on the code at depth 50: with the decrease-depth key held alone,
    one iteration takes the stereoscopy depth from 50 to 0, not to 49.  The
    decrease branch takes the minimum of depth - 1 and 0 where its three
    siblings clamp. *)
Theorem depth_decrease_from_50_is_0 :
  GFX_STEREO_DEPTH
    (fst (Run_tick (running_env (only HK_DECREASE_DEPTH))
                   (Set_.GFX_STEREO_DEPTH 50 initial_state))) = 0.
Proof. vm_compute. reflexivity. Qed.

(** ** C5 *)

(** C5 fails on the code for the top-and-bottom member: with the mode at
    top-and-bottom and its action fired alone, one iteration leaves the mode
    at top-and-bottom, not off. *)
Theorem tab_toggle_leaves_tab :
  GFX_STEREO_MODE
    (fst (Run_tick (running_env (only HK_TOGGLE_STEREO_TAB))
                   (Set_.GFX_STEREO_MODE TAB initial_state))) = TAB.
Proof. vm_compute. reflexivity. Qed.

(** ** C6 *)

(** C6, as stated, does not hold: while the host is shutting down, an
    iteration with the save-slot-3 action asserted emits the save command
    for slot 3. *)
Lemma stopping_tick_still_acts :
  ~ (forall (env : Env) (s : State),
       GetState env = Stopping ->
       signals (snd (Run_tick env s)) = [] /\ fst (Run_tick env s) = s).
Proof.
  intro H.
  destruct (H (stopping_env (only (HK_SAVE_STATE_SLOT_1 2))) initial_state
              eq_refl) as [Hsig _].
  vm_compute in Hsig. discriminate Hsig.
Qed.

(** C6, amended: on an iteration where the host is shutting down, nothing
    inside the lifecycle gate is processed: the iteration is the sleep
    followed, if hotkeys are enabled, by the statement groups placed after
    the gate (stereoscopy depth and convergence, free look, save-state slots
    and undo); so no frame is stepped, the frame-step statics and the
    configuration entries written inside the gate are unchanged, and every
    signal emitted is a save-state one.  The loop goes on to its next
    iteration unless a stop was requested. *)
Theorem stopping_tick_runs_ungated_only (env : Env) (s : State) :
  GetState env = Stopping ->
  Run_tick env s
  = (call (SleepCurrentThread (1000 / 60)) ;;
     when (IsEnabled env) (ungated_hotkeys env)) s
  /\ frame_steps (snd (Run_tick env s)) = 0%nat
  /\ gated_state (fst (Run_tick env s)) = gated_state s
  /\ Forall is_slot_signal (signals (snd (Run_tick env s)))
  /\ (m_stop_requested env = false ->
      forall rest, Run (env :: rest) s = (Run_tick env ;; Run rest) s).
Proof.
  intro Hs. rewrite (Run_tick_stopping env Hs).
  split; [reflexivity |]. split; [| split; [| split]].
  - assert (Hq : silent frame_step_of
                   (call (SleepCurrentThread (1000 / 60)) ;;
                    when (IsEnabled env) (ungated_hotkeys env)))
      by silent_walk fail.
    unfold frame_steps. rewrite (silent_at _ _ Hq s). reflexivity.
  - apply keeps_at. keeps_walk fail.
  - apply signals_of_slot_calls.
    apply (fun H : calls_only slot_signal_or_call _ => H s).
    calls_walk ltac:(exact I).
  - intros Hgo rest. cbn [Run]. rewrite Hgo, (Run_tick_stopping env Hs).
    reflexivity.
Qed.

Lemma stopping_tick_runs_ungated_only_witness :
  let env := stopping_env (only (HK_SAVE_STATE_SLOT_1 2)) in
  let s := initial_state in
  Run_tick env s
  = (call (SleepCurrentThread (1000 / 60)) ;;
     when (IsEnabled env) (ungated_hotkeys env)) s
  /\ frame_steps (snd (Run_tick env s)) = 0%nat
  /\ gated_state (fst (Run_tick env s)) = gated_state s
  /\ Forall is_slot_signal (signals (snd (Run_tick env s)))
  /\ (m_stop_requested env = false ->
      forall rest, Run (env :: rest) s = (Run_tick env ;; Run rest) s).
Proof.
  apply (stopping_tick_runs_ungated_only
           (stopping_env (only (HK_SAVE_STATE_SLOT_1 2))) initial_state).
  reflexivity.
Defined.

(** ** C7 *)

(** C7: for every slot index i below the ten slots and each of the four
    slot actions (load, save, load last saved, select), an iteration that
    reaches the save-state loop with only that action of slot i asserted
    emits exactly one signal, the corresponding one carrying i + 1, and no
    other signal at all. *)
Theorem slot_hotkey_one_command (a : SlotAction) (i : nat) (env : Env)
  (s : State) :
  (i < NUM_STATES)%nat ->
  reaches_slot_loop env ->
  only_asserted env (slot_hotkey a i) ->
  signals (snd (Run_tick env s)) = [slot_signal a (Z.of_nat i + 1)].
Proof.
  intros Hi Hr H.
  exact (produces_at _ _ _ (Run_tick_on_slot_key env a i Hi Hr H) s).
Qed.

Lemma slot_hotkey_one_command_witness :
  signals (snd (Run_tick (running_env (only (HK_LOAD_STATE_SLOT_1 3)))
                         initial_state))
  = [StateLoadSlot 4].
Proof.
  apply (slot_hotkey_one_command LoadSlot 3
           (running_env (only (HK_LOAD_STATE_SLOT_1 3))) initial_state).
  - unfold NUM_STATES. lia.
  - split; [reflexivity | right; reflexivity].
  - apply only_asserted_only. reflexivity.
Defined.

(** ** C8 *)

(** C8 fails on the code: with debugging enabled and the set-pc action
    fired alone, the one signal of the iteration is [Skip], the signal of
    the skip action, not [SetPC]. *)
Theorem set_pc_hotkey_emits_skip :
  signals (snd (Run_tick (running_env (only HK_SET_PC)) initial_state))
  = [Skip]
  /\ Skip <> SetPC.
Proof. split; [vm_compute; reflexivity | discriminate]. Qed.

(** ** C10 *)

(** C10: in Wii mode an iteration emits at most one ConnectWiiRemote
    signal, whatever actions are asserted; it emits none when none of the
    five connect actions is asserted; and an iteration that processes its
    hotkeys emits exactly the one carrying the id of the asserted connect
    action of highest number (Balance Board 4 over Wii Remote 4, 3, 2, 1
    with ids 3, 2, 1, 0), if there is one. *)
Theorem wii_connect_highest_only (env : Env) (s : State) :
  bWii env = true ->
  (List.length (connect_commands (snd (Run_tick env s))) <= 1)%nat
  /\ (no_connect_asserted env ->
      connect_commands (snd (Run_tick env s)) = [])
  /\ (processing env ->
      connect_commands (snd (Run_tick env s))
      = match highest_connect env with Some id => [id] | None => [] end).
Proof.
  intro Hw.
  destruct (Run_tick_connect_any env s) as [Hnil | (Hp & Hc)];
    rewrite ?Hw in *.
  - split; [rewrite Hnil; simpl; lia |]. split; [intros _; exact Hnil |].
    intro Hp. pose proof (produces_at _ _ _ (Run_tick_connect env Hp) s) as Hc.
    rewrite Hw in Hc. exact Hc.
  - rewrite Hc. unfold expected_connect. split; [| split].
    + destruct (highest_connect env); simpl; lia.
    + intros (H1 & H2 & H3 & H4 & H5). unfold highest_connect.
      rewrite H1, H2, H3, H4, H5. reflexivity.
    + reflexivity.
Qed.

Lemma wii_connect_highest_only_witness :
  let env := running_env two_connect_keys in
  (List.length (connect_commands (snd (Run_tick env initial_state))) <= 1)%nat
  /\ (no_connect_asserted env ->
      connect_commands (snd (Run_tick env initial_state)) = [])
  /\ (processing env ->
      connect_commands (snd (Run_tick env initial_state))
      = match highest_connect env with Some id => [id] | None => [] end).
Proof.
  apply (wii_connect_highest_only (running_env two_connect_keys)
           initial_state).
  reflexivity.
Defined.

(** * Further properties of the loop body *)

(** ** Invariants *)

Lemma preserves_skip P : preserves P skip.
Proof. intros s H. exact H. Qed.

Lemma preserves_call P e : preserves P (call e).
Proof. intros s H. exact H. Qed.

Lemma preserves_seq P (a b : Block) :
  preserves P a -> preserves P b -> preserves P (a ;; b).
Proof. intros Ha Hb s H. rewrite fst_seq. apply Hb, Ha, H. Qed.

Lemma preserves_when P (c : bool) (b : Block) :
  preserves P b -> preserves P (when c b).
Proof. destruct c; intro H; [exact H | apply preserves_skip]. Qed.

Lemma preserves_if P (c : bool) (a b : Block) :
  preserves P a -> preserves P b -> preserves P (if c then a else b).
Proof. destruct c; auto. Qed.

(** A statement that keeps what [f] reads preserves every property of
    what [f] reads. *)
Lemma preserves_keeps {A : Type} (f : State -> A) (Q : A -> Prop) b :
  keeps f b -> preserves (fun s => Q (f s)) b.
Proof. intros Hk s H. rewrite (keeps_at f b Hk s). exact H. Qed.

Lemma preserves_updates {A : Type} (f : State -> A) (Q : A -> Prop) g b :
  updates f g b -> (forall v, Q v -> Q (g v)) ->
  preserves (fun s => Q (f s)) b.
Proof. intros Hu Hg s H. rewrite (updates_at f g b Hu s). apply Hg, H. Qed.

Lemma preserves_at P b : preserves P b -> forall s, P s -> P (fst (b s)).
Proof. intro H. exact H. Qed.

Lemma preserves_intro P b : (forall s, P s -> P (fst (b s))) -> preserves P b.
Proof. intro H. exact H. Qed.

#[global] Opaque preserves.

(** What the two halves of the loop body preserve, an iteration
    preserves, whatever it observes; and so does the loop. *)
Lemma Run_tick_preserves P env :
  preserves P (gated_hotkeys env) -> preserves P (ungated_hotkeys env) ->
  preserves P (Run_tick env).
Proof.
  intros Hg Hu. unfold Run_tick.
  apply preserves_seq; [apply preserves_call |].
  apply preserves_when.
  apply preserves_seq; [apply preserves_when, preserves_call |].
  apply preserves_if; [| exact Hu].
  apply preserves_seq; [apply preserves_call |].
  apply preserves_when, preserves_seq; assumption.
Qed.

Lemma Run_preserves P :
  (forall env, preserves P (Run_tick env)) ->
  forall envs, preserves P (Run envs).
Proof.
  intros H envs. induction envs as [| env rest IH]; cbn [Run].
  - apply preserves_skip.
  - apply preserves_if; [apply preserves_skip |].
    apply preserves_seq; [apply H | exact IH].
Qed.

(** ** The frame-step machine, whatever is observed *)

Ltac frameskip_cases env :=
  unfold HandleFrameskipHotkeys;
  destruct (IsHotkey env HK_FRAME_ADVANCE_INCREASE_SPEED false);
  [| destruct (IsHotkey env HK_FRAME_ADVANCE_DECREASE_SPEED false);
     [| destruct (IsHotkey env HK_FRAME_ADVANCE_RESET_SPEED false);
        [| destruct (IsHotkey env HK_FRAME_ADVANCE true)]]].

Lemma HandleFrameskipHotkeys_ranges env :
  preserves (fun s => frame_step_ranges (frame_step_statics s))
    (HandleFrameskipHotkeys env).
Proof.
  apply preserves_intro. intros [ ].
  unfold frame_step_ranges, frame_step_statics, FRAME_STEP_DELAY,
    MAX_FRAME_SKIP_DELAY.
  cbn [frame_step_count frame_step_delay frame_step_delay_count
       frame_step_hold].
  intros (Hc & Hd & Hdc & Hlow).
  assert (Hcase : frame_step_count0 = 30
                  \/ (frame_step_count0 < 30 /\ frame_step_hold0 = false
                      /\ frame_step_delay_count0 = 0))
    by (destruct (Z.eq_dec frame_step_count0 30);
        [left; assumption | right; split; [lia | apply Hlow; lia]]).
  clear Hlow.
  destruct Hcase as [-> | (Hlt & -> & ->)];
  frameskip_cases env;
    cbv [seq whenS modify call skip fst snd frame_step_count
         frame_step_delay frame_step_delay_count frame_step_hold
         Set_.frame_step_count Set_.frame_step_delay
         Set_.frame_step_delay_count Set_.frame_step_hold
         FRAME_STEP_DELAY MAX_FRAME_SKIP_DELAY andb orb negb];
    repeat match goal with
    | |- context [ (?a <? ?b) ] => destruct (Z.ltb_spec a b)
    | |- context [ (?a <=? ?b) ] => destruct (Z.leb_spec a b)
    | |- context [ (?a =? ?b) ] => destruct (Z.eqb_spec a b)
    | |- context [ if ?h then _ else _ ] => destruct h
    end;
    repeat split; intros; try lia; try reflexivity.
Qed.

Lemma processes_spec env : processes env = true <-> processing env.
Proof.
  unfold processes, processing.
  destruct (IsEnabled env), (IsRunningAndStarted env), (GetState env);
    simpl; split; intro H; try discriminate; try reflexivity;
    try (repeat split; discriminate || reflexivity);
    destruct H as (H1 & H2 & H3); congruence.
Qed.

(** An iteration that does not process its hotkeys does at most what the
    statement groups after the lifecycle gate do, around calls that are
    neither signals nor frame steps. *)
(** As [keeps_walk], with [leaf] tried before descending. *)
Ltac keeps_walk_from leaf :=
  repeat first
    [ leaf
    | apply keeps_seq
    | apply keeps_when; intro
    | apply keeps_if
    | apply keeps_skip
    | apply keeps_call ].

Lemma Run_tick_idle_keeps {A : Type} (f : State -> A) env :
  processes env = false ->
  keeps f (ungated_hotkeys env) -> keeps f (Run_tick env).
Proof.
  intros Hp Hu. unfold Run_tick, processes in *. revert Hp.
  destruct (IsEnabled env), (IsRunningAndStarted env), (GetState env);
    simpl; intro Hp; try discriminate Hp;
    keeps_walk_from
      ltac:(idtac;
            match goal with |- keeps _ (ungated_hotkeys _) => exact Hu end).
Qed.

Lemma Run_tick_idle_silent {A : Type} (obs : Effect -> option A) env :
  processes env = false ->
  obs (SleepCurrentThread (1000 / 60)) = None ->
  obs UpdateInput = None -> obs GetStatus = None ->
  silent obs (ungated_hotkeys env) -> silent obs (Run_tick env).
Proof.
  intros Hp H1 H2 H3 Hu. unfold Run_tick, processes in *. revert Hp.
  destruct (IsEnabled env), (IsRunningAndStarted env), (GetState env);
    simpl; intro Hp; try discriminate Hp;
    silent_walk
      ltac:(idtac;
            first
              [ match goal with
                | |- silent _ (ungated_hotkeys _) => exact Hu
                end
              | apply silent_call; assumption ]).
Qed.

Lemma gated_frame_step_ranges env :
  preserves (fun s => frame_step_ranges (frame_step_statics s))
    (gated_hotkeys env).
Proof.
  unfold gated_hotkeys.
  apply preserves_seq;
    [apply (preserves_keeps frame_step_statics); keeps_walk fail |].
  apply preserves_seq; [apply HandleFrameskipHotkeys_ranges |].
  apply (preserves_keeps frame_step_statics). keeps_walk fail.
Qed.

Lemma HandleFrameskipHotkeys_at_most_one env s :
  (frame_steps (snd (HandleFrameskipHotkeys env s)) <= 1)%nat.
Proof.
  destruct s. unfold frame_steps. frameskip_cases env;
    cbv [seq whenS modify call skip fst snd app frame_step_count
         frame_step_delay frame_step_delay_count frame_step_hold
         Set_.frame_step_count Set_.frame_step_delay
         Set_.frame_step_delay_count Set_.frame_step_hold];
    repeat match goal with
    | |- context [ if ?h then _ else _ ] => destruct h
    end; simpl; lia.
Qed.

(** X1: the frame-step statics never leave their ranges, whatever the
    loop observes and however long it runs: once the count is within
    [0, 30], the delay and the delay count within [0, 60], and the hold flag
    and delay count are clear while the count is below 30, the same holds
    after any number of iterations. *)
Theorem frame_step_ranges_kept (envs : list Env) (s : State) :
  frame_step_ranges (frame_step_statics s) ->
  frame_step_ranges (frame_step_statics (fst (Run envs s))).
Proof.
  apply (preserves_at (fun s => frame_step_ranges (frame_step_statics s))).
  apply Run_preserves. intro env. apply Run_tick_preserves.
  - apply gated_frame_step_ranges.
  - apply (preserves_keeps frame_step_statics). keeps_walk fail.
Qed.

Lemma frame_step_ranges_kept_witness :
  frame_step_ranges
    (frame_step_statics
       (fst (Run (repeat (running_env (only HK_FRAME_ADVANCE)) 33
                  ++ [running_env (only HK_FRAME_ADVANCE_DECREASE_SPEED)])
                 initial_state))).
Proof.
  apply (frame_step_ranges_kept
           (repeat (running_env (only HK_FRAME_ADVANCE)) 33
            ++ [running_env (only HK_FRAME_ADVANCE_DECREASE_SPEED)])
           initial_state).
  unfold frame_step_ranges, FRAME_STEP_DELAY, MAX_FRAME_SKIP_DELAY. simpl.
  repeat split; lia.
Defined.

(** X2: no iteration steps more than one frame, whatever it observes and
    whatever the state. *)
Theorem at_most_one_frame_step (env : Env) (s : State) :
  (frame_steps (snd (Run_tick env s)) <= 1)%nat.
Proof.
  destruct (processes env) eqn:Hp.
  - apply processes_spec in Hp.
    destruct (Run_tick_frame_step env s Hp) as [_ ->].
    apply HandleFrameskipHotkeys_at_most_one.
  - unfold frame_steps.
    rewrite (silent_at frame_step_of (Run_tick env)); [simpl; lia |].
    apply Run_tick_idle_silent; try reflexivity; [exact Hp |].
    silent_walk fail.
Qed.

(** X3: the three delay keys come before the frame-advance key, in the
    order increase, decrease, reset.  On an iteration that processes its
    hotkeys, the first of them that fires moves the delay (one up, at most
    to 60; one down, at least to 0; back to 1) and ends the frame-step
    handling: no frame is stepped and the count, the delay count and the
    hold flag stay as they were, even with the frame-advance key held. *)
Theorem delay_keys_come_first (env : Env) (s : State) :
  processing env ->
  let after := frame_step_statics (fst (Run_tick env s)) in
  let steps := frame_steps (snd (Run_tick env s)) in
  (IsHotkey env HK_FRAME_ADVANCE_INCREASE_SPEED false = true ->
   after = (frame_step_count s, Z.min (frame_step_delay s + 1) 60,
            frame_step_delay_count s, frame_step_hold s)
   /\ steps = 0%nat)
  /\ (IsHotkey env HK_FRAME_ADVANCE_INCREASE_SPEED false = false ->
      IsHotkey env HK_FRAME_ADVANCE_DECREASE_SPEED false = true ->
      after = (frame_step_count s, Z.max (frame_step_delay s - 1) 0,
               frame_step_delay_count s, frame_step_hold s)
      /\ steps = 0%nat)
  /\ (IsHotkey env HK_FRAME_ADVANCE_INCREASE_SPEED false = false ->
      IsHotkey env HK_FRAME_ADVANCE_DECREASE_SPEED false = false ->
      IsHotkey env HK_FRAME_ADVANCE_RESET_SPEED false = true ->
      after = (frame_step_count s, 1,
               frame_step_delay_count s, frame_step_hold s)
      /\ steps = 0%nat).
Proof.
  intros Hp after steps. subst after steps.
  destruct (Run_tick_frame_step env s Hp) as [-> ->].
  unfold HandleFrameskipHotkeys. destruct s.
  repeat split; intros;
    repeat match goal with H : IsHotkey _ _ _ = _ |- _ => rewrite H end;
    reflexivity.
Qed.

Lemma delay_keys_come_first_witness :
  let env := running_env (fun k _ =>
               match k with
               | HK_FRAME_ADVANCE_INCREASE_SPEED | HK_FRAME_ADVANCE => true
               | _ => false
               end) in
  let s := with_delay 60 in
  let after := frame_step_statics (fst (Run_tick env s)) in
  let steps := frame_steps (snd (Run_tick env s)) in
  (IsHotkey env HK_FRAME_ADVANCE_INCREASE_SPEED false = true ->
   after = (frame_step_count s, Z.min (frame_step_delay s + 1) 60,
            frame_step_delay_count s, frame_step_hold s)
   /\ steps = 0%nat)
  /\ (IsHotkey env HK_FRAME_ADVANCE_INCREASE_SPEED false = false ->
      IsHotkey env HK_FRAME_ADVANCE_DECREASE_SPEED false = true ->
      after = (frame_step_count s, Z.max (frame_step_delay s - 1) 0,
               frame_step_delay_count s, frame_step_hold s)
      /\ steps = 0%nat)
  /\ (IsHotkey env HK_FRAME_ADVANCE_INCREASE_SPEED false = false ->
      IsHotkey env HK_FRAME_ADVANCE_DECREASE_SPEED false = false ->
      IsHotkey env HK_FRAME_ADVANCE_RESET_SPEED false = true ->
      after = (frame_step_count s, 1,
               frame_step_delay_count s, frame_step_hold s)
      /\ steps = 0%nat).
Proof.
  apply (delay_keys_come_first
           (running_env (fun k _ =>
               match k with
               | HK_FRAME_ADVANCE_INCREASE_SPEED | HK_FRAME_ADVANCE => true
               | _ => false
               end))
           (with_delay 60)).
  repeat split; discriminate.
Defined.

(** The iteration on which the frame-advance key is found up. *)
Lemma released_iteration (env : Env) (s : State) :
  processing env ->
  frame_advance_released env ->
  frame_step_ranges (frame_step_statics s) ->
  frame_step_statics (fst (Run_tick env s))
  = (0, frame_step_delay s, 0, false)
  /\ frame_steps (snd (Run_tick env s)) = 0%nat.
Proof.
  intros Hp ((H1 & H2 & H3) & H4) Hr.
  destruct (Run_tick_frame_step env s Hp) as [-> ->].
  unfold HandleFrameskipHotkeys. rewrite H1, H2, H3, H4.
  destruct s. unfold frame_step_ranges, frame_step_statics,
    FRAME_STEP_DELAY in *.
  cbn [frame_step_count frame_step_delay frame_step_delay_count
       frame_step_hold] in Hr.
  destruct Hr as (Hc & _ & _ & Hlow).
  unfold frame_steps.
  cbv [seq whenS modify call skip fst snd app frame_step_count
       frame_step_delay frame_step_delay_count frame_step_hold
       Set_.frame_step_count Set_.frame_step_delay_count
       Set_.frame_step_hold].
  destruct (Z.ltb_spec 0 frame_step_count0); [split; reflexivity |].
  destruct Hlow as [-> ->]; [lia |].
  replace frame_step_count0 with 0 by lia. split; reflexivity.
Qed.

(** X4: releasing the frame-advance key resets the machine.  On an
    iteration that processes its hotkeys with the key up and no delay key
    firing, a machine within its ranges is left with count 0, delay count 0
    and the hold flag down, the delay as it was; no frame is stepped. *)
Theorem release_resets (env : Env) (s : State) :
  processing env ->
  frame_advance_released env ->
  frame_step_ranges (frame_step_statics s) ->
  frame_step_statics (fst (Run_tick env s))
  = (0, frame_step_delay s, 0, false)
  /\ frame_steps (snd (Run_tick env s)) = 0%nat.
Proof.
  intros Hp Hrel Hr. split.
  - apply released_iteration; assumption.
  - destruct Hrel as ((H1 & H2 & H3) & H4).
    destruct (Run_tick_frame_step env s Hp) as [_ ->].
    unfold HandleFrameskipHotkeys, frame_steps. rewrite H1, H2, H3, H4.
    destruct s.
    cbv [seq whenS modify call skip fst snd app frame_step_count].
    destruct (0 <? frame_step_count0); reflexivity.
Qed.

Lemma release_resets_witness :
  let s := fst (Run (repeat (running_env (only HK_FRAME_ADVANCE)) 12)
                    initial_state) in
  frame_step_statics (fst (Run_tick (running_env (fun _ _ => false)) s))
  = (0, frame_step_delay s, 0, false)
  /\ frame_steps (snd (Run_tick (running_env (fun _ _ => false)) s)) = 0%nat.
Proof.
  apply (release_resets (running_env (fun _ _ => false))
           (fst (Run (repeat (running_env (only HK_FRAME_ADVANCE)) 12)
                     initial_state))).
  - repeat split; discriminate.
  - repeat split.
  - vm_compute. repeat split; intros; try discriminate; try reflexivity.
Defined.

(** X5: a fresh press steps at once.  After an iteration with the
    frame-advance key up, the next iteration with the key held steps
    exactly one frame, wherever in its cycle the machine was before the
    release. *)
Theorem press_after_release_steps (up down : Env) (s : State) :
  processing up -> frame_advance_released up ->
  processing down -> frame_advance_held down ->
  frame_step_ranges (frame_step_statics s) ->
  frame_steps (snd (Run_tick down (fst (Run_tick up s)))) = 1%nat.
Proof.
  intros Hup Hrel Hdown Hheld Hr.
  destruct (released_iteration up s Hup Hrel Hr) as [Hst _].
  destruct (Run_tick_frame_step down (fst (Run_tick up s)) Hdown) as [_ ->].
  assert (Hd : 0 <= frame_step_delay s)
    by (destruct s; unfold frame_step_ranges, frame_step_statics in Hr;
        simpl in *; lia).
  assert (H0 : held_after (frame_step_delay s) 0 (fst (Run_tick up s)))
    by (apply held_counting; [unfold FRAME_STEP_DELAY; lia | exact Hst]).
  destruct (held_after_fires _ _ down _ Hd Hheld H0)
    as [[H1 _] | [_ Hno]]; [exact H1 |].
  exfalso. apply Hno. left. reflexivity.
Qed.

Lemma press_after_release_steps_witness :
  frame_steps
    (snd (Run_tick (running_env (only HK_FRAME_ADVANCE))
            (fst (Run_tick (running_env (fun _ _ => false))
                    (fst (Run (repeat (running_env (only HK_FRAME_ADVANCE)) 12)
                              initial_state))))))
  = 1%nat.
Proof.
  apply (press_after_release_steps
           (running_env (fun _ _ => false))
           (running_env (only HK_FRAME_ADVANCE))
           (fst (Run (repeat (running_env (only HK_FRAME_ADVANCE)) 12)
                     initial_state))).
  - repeat split; discriminate.
  - repeat split.
  - repeat split; discriminate.
  - repeat split.
  - vm_compute. repeat split; intros; try discriminate; try reflexivity.
Defined.

(** ** Configuration entries, whatever is observed *)

(** As [updates_walk], for an invariant of what [f] reads. *)
Ltac preserves_walk f Q target :=
  repeat first
    [ target
    | apply preserves_seq
    | apply (preserves_keeps f Q); solve [keeps_walk fail] ].

(** X6: the stereoscopy convergence never leaves [0, 500]: if it is in
    that range, it is in that range after any number of iterations,
    whatever they observe. *)
Theorem convergence_stays_in_range (envs : list Env) (s : State) :
  0 <= GFX_STEREO_CONVERGENCE s <= 500 ->
  0 <= GFX_STEREO_CONVERGENCE (fst (Run envs s)) <= 500.
Proof.
  apply (preserves_at (fun s => (fun v => 0 <= v <= 500)
                                  (GFX_STEREO_CONVERGENCE s))).
  apply Run_preserves. intro env. apply Run_tick_preserves.
  - apply (preserves_keeps GFX_STEREO_CONVERGENCE (fun v => 0 <= v <= 500)).
    keeps_walk fail.
  - unfold ungated_hotkeys.
    preserves_walk GFX_STEREO_CONVERGENCE (fun v => 0 <= v <= 500)
      ltac:(apply (preserves_updates GFX_STEREO_CONVERGENCE
                     (fun v => 0 <= v <= 500) _ _
                     (stereo_convergence_updates env));
            intros v Hv; unfold convergence_update;
            destruct (IsHotkey env HK_INCREASE_CONVERGENCE true),
                     (IsHotkey env HK_DECREASE_CONVERGENCE true); lia).
Qed.

Lemma convergence_stays_in_range_witness :
  0 <= GFX_STEREO_CONVERGENCE
         (fst (Run (repeat (stopping_env (only HK_INCREASE_CONVERGENCE)) 200)
                   initial_state)) <= 500.
Proof.
  apply (convergence_stays_in_range
           (repeat (stopping_env (only HK_INCREASE_CONVERGENCE)) 200)
           initial_state).
  simpl. lia.
Defined.

(** X7: the stereoscopy depth never rises above 100: if it is at most 100,
    it is at most 100 after any number of iterations, whatever they
    observe. *)
Theorem depth_stays_below_max (envs : list Env) (s : State) :
  GFX_STEREO_DEPTH s <= 100 ->
  GFX_STEREO_DEPTH (fst (Run envs s)) <= 100.
Proof.
  apply (preserves_at (fun s => (fun v => v <= 100) (GFX_STEREO_DEPTH s))).
  apply Run_preserves. intro env. apply Run_tick_preserves.
  - apply (preserves_keeps GFX_STEREO_DEPTH (fun v => v <= 100)).
    keeps_walk fail.
  - unfold ungated_hotkeys.
    preserves_walk GFX_STEREO_DEPTH (fun v => v <= 100)
      ltac:(apply (preserves_updates GFX_STEREO_DEPTH
                     (fun v => v <= 100) _ _
                     (stereo_depth_updates env));
            intros v Hv; unfold depth_update;
            destruct (IsHotkey env HK_INCREASE_DEPTH true),
                     (IsHotkey env HK_DECREASE_DEPTH true); lia).
Qed.

Lemma depth_stays_below_max_witness :
  GFX_STEREO_DEPTH
    (fst (Run (repeat (running_env (only HK_INCREASE_DEPTH)) 200)
              initial_state)) <= 100.
Proof.
  apply (depth_stays_below_max
           (repeat (running_env (only HK_INCREASE_DEPTH)) 200) initial_state).
  simpl. lia.
Defined.

(** *** Internal resolution *)




(** *** Aspect ratio *)

Lemma aspect_ratio_updates env :
  updates GFX_ASPECT_RATIO (aspect_ratio_update env) (graphics_hotkeys env).
Proof.
  assert (H : updates GFX_ASPECT_RATIO (aspect_ratio_update env)
                (when (IsHotkey env HK_TOGGLE_AR false)
                   (show_msg env ARToggled ;;
                    modify (fun s =>
                      let aspect_ratio := Z.land (GFX_ASPECT_RATIO s + 1) 3 in
                      Set_.GFX_ASPECT_RATIO aspect_ratio s)))).
  { apply updates_intro. intros [ ]. unfold aspect_ratio_update, show_msg.
    destruct (IsHotkey env HK_TOGGLE_AR false), (g_renderer env);
      reflexivity. }
  unfold graphics_hotkeys. eapply updates_eq.
  - updates_walk
      ltac:(idtac;
            match goal with
            | |- updates _ _ (when (IsHotkey _ HK_TOGGLE_AR _) _) => apply H
            end).
  - intro x. reflexivity.
Qed.

Lemma Run_tick_aspect_ratio env :
  processing env ->
  updates GFX_ASPECT_RATIO (aspect_ratio_update env) (Run_tick env).
Proof.
  intro Hp. rewrite (Run_tick_processing env Hp).
  unfold gated_hotkeys, ungated_hotkeys.
  eapply updates_eq.
  - updates_walk
      ltac:(idtac;
            match goal with
            | |- updates _ _ (graphics_hotkeys _) =>
                apply aspect_ratio_updates
            end).
  - intro x. reflexivity.
Qed.

Lemma land_3_mod_4 (x : Z) : Z.land x 3 = x mod 4.
Proof. change 3 with (Z.ones 2). apply Z.land_ones. lia. Qed.

(** X9: the aspect-ratio toggle moves to the next of the four modes and
    wraps around: on an iteration that processes its hotkeys and on which
    the key fires, the new value is (old + 1) mod 4, so it lies in [0, 3]
    whatever the old value was. *)
Theorem aspect_ratio_next_of_four (env : Env) (s : State) :
  processing env ->
  IsHotkey env HK_TOGGLE_AR false = true ->
  GFX_ASPECT_RATIO (fst (Run_tick env s)) = (GFX_ASPECT_RATIO s + 1) mod 4
  /\ 0 <= GFX_ASPECT_RATIO (fst (Run_tick env s)) <= 3.
Proof.
  intros Hp Hk.
  rewrite (updates_at _ _ _ (Run_tick_aspect_ratio env Hp) s).
  unfold aspect_ratio_update. rewrite Hk, land_3_mod_4.
  split; [reflexivity |].
  pose proof (Z.mod_pos_bound (GFX_ASPECT_RATIO s + 1) 4). lia.
Qed.

Lemma aspect_ratio_next_of_four_witness :
  let env := running_env (only HK_TOGGLE_AR) in
  let s := Set_.GFX_ASPECT_RATIO 3 initial_state in
  GFX_ASPECT_RATIO (fst (Run_tick env s)) = (GFX_ASPECT_RATIO s + 1) mod 4
  /\ 0 <= GFX_ASPECT_RATIO (fst (Run_tick env s)) <= 3.
Proof.
  apply (aspect_ratio_next_of_four (running_env (only HK_TOGGLE_AR))
           (Set_.GFX_ASPECT_RATIO 3 initial_state)).
  - repeat split; discriminate.
  - reflexivity.
Defined.

Lemma Run_cons env rest :
  m_stop_requested env = false ->
  Run (env :: rest) = (Run_tick env ;; Run rest).
Proof. intro H. cbn [Run]. rewrite H. reflexivity. Qed.

(** X10: four presses of the aspect-ratio toggle come back to the mode
    they started from: after four iterations that process their hotkeys
    with the key firing on each, a value in [0, 3] is what it was. *)
Theorem aspect_ratio_cycle_of_four (e1 e2 e3 e4 : Env) (s : State) :
  Forall (fun env => goes_on_processing env
                     /\ IsHotkey env HK_TOGGLE_AR false = true)
         [e1; e2; e3; e4] ->
  0 <= GFX_ASPECT_RATIO s <= 3 ->
  GFX_ASPECT_RATIO (fst (Run [e1; e2; e3; e4] s)) = GFX_ASPECT_RATIO s.
Proof.
  intros Hall Hr.
  repeat match goal with
  | H : Forall _ (_ :: _) |- _ => inversion H; subst; clear H
  | H : _ /\ _ |- _ => destruct H
  | H : goes_on_processing _ |- _ => destruct H
  end.
  rewrite !Run_cons by assumption.
  rewrite !fst_seq. cbn [Run skip fst].
  repeat match goal with
  | Hp : processing ?e |- context [ GFX_ASPECT_RATIO (fst (Run_tick ?e ?x)) ] =>
      rewrite (updates_at _ _ _ (Run_tick_aspect_ratio e Hp) x)
  end.
  unfold aspect_ratio_update.
  repeat match goal with
  | H : IsHotkey _ HK_TOGGLE_AR false = true |- _ => rewrite H; clear H
  end.
  assert (Hx : GFX_ASPECT_RATIO s = 0 \/ GFX_ASPECT_RATIO s = 1
               \/ GFX_ASPECT_RATIO s = 2 \/ GFX_ASPECT_RATIO s = 3) by lia.
  destruct Hx as [-> | [-> | [-> | ->]]]; reflexivity.
Qed.

Lemma aspect_ratio_cycle_of_four_witness :
  let env := running_env (only HK_TOGGLE_AR) in
  let s := Set_.GFX_ASPECT_RATIO 2 initial_state in
  GFX_ASPECT_RATIO (fst (Run [env; env; env; env] s)) = GFX_ASPECT_RATIO s.
Proof.
  apply (aspect_ratio_cycle_of_four
           (running_env (only HK_TOGGLE_AR)) (running_env (only HK_TOGGLE_AR))
           (running_env (only HK_TOGGLE_AR)) (running_env (only HK_TOGGLE_AR))
           (Set_.GFX_ASPECT_RATIO 2 initial_state)).
  - repeat constructor; discriminate.
  - simpl. lia.
Defined.

(** *** Boolean graphics settings *)

Lemma graphics_flags_updates env :
  updates graphics_flags (graphics_flags_update env) (graphics_hotkeys env).
Proof.
  unfold graphics_hotkeys. eapply updates_eq.
  - eapply updates_seq; [apply updates_keeps; keeps_walk fail |].
    eapply updates_seq;
      [apply (updates_intro graphics_flags
                (fun '(crop, efb, xfb, imm, fog, dump, hires) =>
                   (flip_if (IsHotkey env HK_TOGGLE_CROP false) crop,
                    efb, xfb, imm, fog, dump, hires)));
       intros [ ]; unfold flip_if;
       destruct (IsHotkey env HK_TOGGLE_CROP false); reflexivity |].
    eapply updates_seq; [apply updates_keeps; keeps_walk fail |].
    eapply updates_seq;
      [apply (updates_intro graphics_flags
                (fun '(crop, efb, xfb, imm, fog, dump, hires) =>
                   (crop, flip_if (IsHotkey env HK_TOGGLE_EFBCOPIES false) efb,
                    xfb, imm, fog, dump, hires)));
       intros [ ]; unfold flip_if, show_msg;
       destruct (IsHotkey env HK_TOGGLE_EFBCOPIES false), (g_renderer env);
       reflexivity |].
    eapply updates_seq;
      [apply (updates_intro graphics_flags
                (fun '(crop, efb, xfb, imm, fog, dump, hires) =>
                   (crop, efb,
                    flip_if (IsHotkey env HK_TOGGLE_XFBCOPIES false) xfb,
                    imm, fog, dump, hires)));
       intros [ ]; unfold flip_if, show_msg;
       destruct (IsHotkey env HK_TOGGLE_XFBCOPIES false), (g_renderer env);
       reflexivity |].
    eapply updates_seq;
      [apply (updates_intro graphics_flags
                (fun '(crop, efb, xfb, imm, fog, dump, hires) =>
                   (crop, efb, xfb,
                    flip_if (IsHotkey env HK_TOGGLE_IMMEDIATE_XFB false) imm,
                    fog, dump, hires)));
       intros [ ]; unfold flip_if, show_msg;
       destruct (IsHotkey env HK_TOGGLE_IMMEDIATE_XFB false),
                (g_renderer env);
       reflexivity |].
    eapply updates_seq;
      [apply (updates_intro graphics_flags
                (fun '(crop, efb, xfb, imm, fog, dump, hires) =>
                   (crop, efb, xfb, imm,
                    flip_if (IsHotkey env HK_TOGGLE_FOG false) fog,
                    dump, hires)));
       intros [ ]; unfold flip_if, show_msg;
       destruct (IsHotkey env HK_TOGGLE_FOG false), (g_renderer env);
       reflexivity |].
    eapply updates_seq;
      [apply (updates_intro graphics_flags
                (fun '(crop, efb, xfb, imm, fog, dump, hires) =>
                   (crop, efb, xfb, imm, fog,
                    flip_if (IsHotkey env HK_TOGGLE_DUMPTEXTURES false) dump,
                    hires)));
       intros [ ]; unfold flip_if;
       destruct (IsHotkey env HK_TOGGLE_DUMPTEXTURES false); reflexivity |].
    apply (updates_intro graphics_flags
             (fun '(crop, efb, xfb, imm, fog, dump, hires) =>
                (crop, efb, xfb, imm, fog, dump,
                 flip_if (IsHotkey env HK_TOGGLE_TEXTURES false) hires))).
    intros [ ]; unfold flip_if;
      destruct (IsHotkey env HK_TOGGLE_TEXTURES false); reflexivity.
  - intros [[[[[[crop efb] xfb] imm] fog] dump] hires]. reflexivity.
Qed.

Lemma Run_tick_graphics_flags env :
  processing env ->
  updates graphics_flags (graphics_flags_update env) (Run_tick env).
Proof.
  intro Hp. rewrite (Run_tick_processing env Hp).
  unfold gated_hotkeys, ungated_hotkeys.
  eapply updates_eq.
  - updates_walk
      ltac:(idtac;
            match goal with
            | |- updates _ _ (graphics_hotkeys _) =>
                apply graphics_flags_updates
            end).
  - intro x. reflexivity.
Qed.

(** X11: each of the seven boolean graphics settings (crop, skip EFB copy,
    skip XFB copy, immediate XFB, disable fog, dump textures, hires
    textures) is flipped by an iteration exactly when its own toggle key
    fires, whatever else fires on that iteration; so two iterations with
    the same keys firing leave all seven as they were. *)
Theorem graphics_toggles_flip_own_flag (env : Env) (s : State) :
  processing env ->
  graphics_flags (fst (Run_tick env s))
  = graphics_flags_update env (graphics_flags s)
  /\ graphics_flags (fst (Run_tick env (fst (Run_tick env s))))
     = graphics_flags s.
Proof.
  intro Hp.
  rewrite !(updates_at _ _ _ (Run_tick_graphics_flags env Hp)).
  split; [reflexivity |].
  destruct (graphics_flags s) as [[[[[[crop efb] xfb] imm] fog] dump] hires].
  unfold graphics_flags_update, flip_if.
  destruct (IsHotkey env HK_TOGGLE_CROP false),
           (IsHotkey env HK_TOGGLE_EFBCOPIES false),
           (IsHotkey env HK_TOGGLE_XFBCOPIES false),
           (IsHotkey env HK_TOGGLE_IMMEDIATE_XFB false),
           (IsHotkey env HK_TOGGLE_FOG false),
           (IsHotkey env HK_TOGGLE_DUMPTEXTURES false),
           (IsHotkey env HK_TOGGLE_TEXTURES false);
    rewrite ?negb_involutive; reflexivity.
Qed.

Lemma graphics_toggles_flip_own_flag_witness :
  let env := running_env (fun k _ =>
               match k with
               | HK_TOGGLE_FOG | HK_TOGGLE_CROP | HK_INCREASE_IR => true
               | _ => false
               end) in
  graphics_flags (fst (Run_tick env initial_state))
  = graphics_flags_update env (graphics_flags initial_state)
  /\ graphics_flags (fst (Run_tick env (fst (Run_tick env initial_state))))
     = graphics_flags initial_state.
Proof.
  apply (graphics_toggles_flip_own_flag
           (running_env (fun k _ =>
               match k with
               | HK_TOGGLE_FOG | HK_TOGGLE_CROP | HK_INCREASE_IR => true
               | _ => false
               end))
           initial_state).
  repeat split; discriminate.
Defined.

(** *** On-screen messages *)

(** X12: without a renderer no on-screen message is shown, whatever the
    iteration observes and whatever keys fire. *)
Theorem no_renderer_no_osd_message (env : Env) (s : State) :
  g_renderer env = false ->
  osd_messages (snd (Run_tick env s)) = [].
Proof.
  intro Hr. apply (silent_at osd_of (Run_tick env)).
  unfold Run_tick.
  silent_walk
    ltac:(idtac;
          match goal with
          | H : g_renderer env = true |- _ =>
              rewrite Hr in H; discriminate H
          end).
Qed.

Lemma no_renderer_no_osd_message_witness :
  osd_messages
    (snd (Run_tick
            {| m_stop_requested := false; IsEnabled := true;
               GetState := Running; IsRunningAndStarted := true;
               IsHotkey := fun _ _ => true;
               m_bt_passthrough_enabled := false; bt_device := false;
               bEnableDebugging := true; bWii := true; g_renderer := false;
               EFB_SCALE_AUTO_INTEGRAL := 0 |}
            initial_state)) = [].
Proof.
  apply (no_renderer_no_osd_message
           {| m_stop_requested := false; IsEnabled := true;
              GetState := Running; IsRunningAndStarted := true;
              IsHotkey := fun _ _ => true;
              m_bt_passthrough_enabled := false; bt_device := false;
              bEnableDebugging := true; bWii := true; g_renderer := false;
              EFB_SCALE_AUTO_INTEGRAL := 0 |}
           initial_state).
  reflexivity.
Defined.

(** *** Emulation speed *)

Lemma decrease_lands_outside_band_or_on_one (v : float) :
  in_snap_band (decrease_emulation_speed v) ->
  decrease_emulation_speed v = 1.0%float.
Proof.
  unfold in_snap_band, decrease_emulation_speed, fgeb.
  destruct (PrimFloat.leb (PrimFloat.sub v 0.1) 0),
           (PrimFloat.leb 0.95 (PrimFloat.sub v 0.1)) eqn:Hlo,
           (PrimFloat.leb (PrimFloat.sub v 0.1) 1.05) eqn:Hhi;
    cbn [orb andb]; intros [H1 H2]; try reflexivity; congruence.
Qed.

Lemma increase_lands_outside_band_or_on_one (v : float) :
  in_snap_band (increase_emulation_speed v) ->
  increase_emulation_speed v = 1.0%float.
Proof.
  unfold in_snap_band, increase_emulation_speed, fgeb.
  destruct (PrimFloat.leb 0.95 (PrimFloat.add v 0.1)) eqn:Hlo,
           (PrimFloat.leb (PrimFloat.add v 0.1) 1.05) eqn:Hhi;
    cbn [andb]; intros [H1 H2]; try reflexivity; congruence.
Qed.

(** X13: an adjustment never leaves the emulation speed inside the snap
    band anywhere but on 1.0: after an iteration that processes its
    hotkeys and on which the decrease or the increase key fires (or both),
    a speed within [0.95, 1.05] is exactly 1.0, whatever the speed was
    before. *)
Theorem adjusted_speed_in_band_is_one (env : Env) (s : State) :
  processing env ->
  IsHotkey env HK_DECREASE_EMULATION_SPEED false = true
  \/ IsHotkey env HK_INCREASE_EMULATION_SPEED false = true ->
  in_snap_band (m_EmulationSpeed (fst (Run_tick env s))) ->
  m_EmulationSpeed (fst (Run_tick env s)) = 1.0%float.
Proof.
  intros Hp Hk. rewrite (updates_at _ _ _ (Run_tick_speed env Hp) s).
  unfold speed_update.
  destruct (IsHotkey env HK_INCREASE_EMULATION_SPEED false).
  - apply increase_lands_outside_band_or_on_one.
  - destruct Hk as [-> | Hk]; [| discriminate Hk].
    apply decrease_lands_outside_band_or_on_one.
Qed.

Lemma adjusted_speed_in_band_is_one_witness :
  m_EmulationSpeed
    (fst (Run_tick (running_env (only HK_DECREASE_EMULATION_SPEED))
                   (Set_.m_EmulationSpeed 1.125%float initial_state)))
  = 1.0%float.
Proof.
  apply (adjusted_speed_in_band_is_one
           (running_env (only HK_DECREASE_EMULATION_SPEED))
           (Set_.m_EmulationSpeed 1.125%float initial_state)).
  - repeat split; discriminate.
  - left. reflexivity.
  - split; vm_compute; reflexivity.
Defined.

(** X14: the decrease key never leaves the emulation speed at or below
    zero: after an iteration that processes its hotkeys and on which the
    decrease key fires and the increase key does not, the test
    [speed <= 0] fails, whatever the speed was before. *)
Theorem decreased_speed_not_at_most_zero (env : Env) (s : State) :
  processing env ->
  IsHotkey env HK_DECREASE_EMULATION_SPEED false = true ->
  IsHotkey env HK_INCREASE_EMULATION_SPEED false = false ->
  ~ at_most_zero (m_EmulationSpeed (fst (Run_tick env s))).
Proof.
  intros Hp Hd Hi. rewrite (updates_at _ _ _ (Run_tick_speed env Hp) s).
  unfold speed_update, at_most_zero. rewrite Hd, Hi.
  unfold decrease_emulation_speed.
  destruct (PrimFloat.leb (PrimFloat.sub (m_EmulationSpeed s) 0.1) 0)
    eqn:Hz; cbn [orb].
  - vm_compute. discriminate.
  - destruct (fgeb (PrimFloat.sub (m_EmulationSpeed s) 0.1) 0.95
              && PrimFloat.leb (PrimFloat.sub (m_EmulationSpeed s) 0.1) 1.05).
    + vm_compute. discriminate.
    + rewrite Hz. discriminate.
Qed.

Lemma decreased_speed_not_at_most_zero_witness :
  ~ at_most_zero
      (m_EmulationSpeed
         (fst (Run_tick (running_env (only HK_DECREASE_EMULATION_SPEED))
                        (Set_.m_EmulationSpeed 0.1%float initial_state)))).
Proof.
  apply (decreased_speed_not_at_most_zero
           (running_env (only HK_DECREASE_EMULATION_SPEED))
           (Set_.m_EmulationSpeed 0.1%float initial_state)).
  - repeat split; discriminate.
  - reflexivity.
  - reflexivity.
Defined.

(** *** Stereoscopy mode and shader *)

Lemma clear_dubois_is_not_dubois (shader : string) :
  clear_dubois shader <> DUBOIS_ALGORITHM_SHADER.
Proof.
  unfold clear_dubois.
  destruct (String.eqb_spec shader DUBOIS_ALGORITHM_SHADER);
    [discriminate | assumption].
Qed.

Lemma sbs_tab_update_dubois env v :
  dubois_only_with_anaglyph v ->
  dubois_only_with_anaglyph (sbs_tab_update env v).
Proof.
  unfold dubois_only_with_anaglyph, sbs_tab_update.
  destruct v as [mode shader]. cbn [fst snd]. intro H.
  destruct (IsHotkey env HK_TOGGLE_STEREO_SBS false
            || IsHotkey env HK_TOGGLE_STEREO_TAB false); [| exact H].
  destruct mode; cbn [StereoMode_eqb negb fst snd]; intro E;
    try (apply clear_dubois_is_not_dubois in E; contradiction).
  specialize (H E). discriminate H.
Qed.

Lemma anaglyph_update_dubois env v :
  dubois_only_with_anaglyph v ->
  dubois_only_with_anaglyph (anaglyph_update env v).
Proof.
  unfold dubois_only_with_anaglyph, anaglyph_update.
  destruct v as [mode shader]. cbn [fst snd]. intro H.
  destruct (IsHotkey env HK_TOGGLE_STEREO_ANAGLYPH false); [| exact H].
  destruct mode; cbn [StereoMode_eqb negb fst snd]; intro E;
    try reflexivity; discriminate E.
Qed.

Lemma vision3d_update_dubois env v :
  dubois_only_with_anaglyph v ->
  dubois_only_with_anaglyph (vision3d_update env v).
Proof.
  unfold dubois_only_with_anaglyph, vision3d_update.
  destruct v as [mode shader]. cbn [fst snd]. intro H.
  destruct (IsHotkey env HK_TOGGLE_STEREO_3DVISION false); [| exact H].
  destruct mode; cbn [StereoMode_eqb negb fst snd]; intro E;
    try (apply clear_dubois_is_not_dubois in E; contradiction).
  specialize (H E). discriminate H.
Qed.

(** X15: the hotkeys never leave the Dubois shader selected outside the
    anaglyph mode: if the post-processing shader is [dubois] only when the
    stereoscopy mode is anaglyph, this is still so after any number of
    iterations, whatever they observe and whatever keys fire together. *)
Theorem dubois_stays_with_anaglyph (envs : list Env) (s : State) :
  dubois_only_with_anaglyph (stereo_view s) ->
  dubois_only_with_anaglyph (stereo_view (fst (Run envs s))).
Proof.
  apply (preserves_at (fun s => dubois_only_with_anaglyph (stereo_view s))).
  apply Run_preserves. intro env. apply Run_tick_preserves.
  - unfold gated_hotkeys, stereoscopy_hotkeys.
    preserves_walk stereo_view dubois_only_with_anaglyph
      ltac:(idtac;
            match goal with
            | |- preserves _ (stereo_sbs_tab_hotkeys _) =>
                apply (preserves_updates stereo_view
                         dubois_only_with_anaglyph _ _
                         (sbs_tab_updates env) (sbs_tab_update_dubois env))
            | |- preserves _ (stereo_anaglyph_hotkey _) =>
                apply (preserves_updates stereo_view
                         dubois_only_with_anaglyph _ _
                         (anaglyph_updates env) (anaglyph_update_dubois env))
            | |- preserves _ (stereo_3dvision_hotkey _) =>
                apply (preserves_updates stereo_view
                         dubois_only_with_anaglyph _ _
                         (vision3d_updates env) (vision3d_update_dubois env))
            end).
  - apply (preserves_keeps stereo_view dubois_only_with_anaglyph).
    keeps_walk fail.
Qed.

Lemma dubois_stays_with_anaglyph_witness :
  dubois_only_with_anaglyph
    (stereo_view
       (fst (Run [running_env (only HK_TOGGLE_STEREO_ANAGLYPH);
                  running_env (only HK_TOGGLE_STEREO_SBS)]
                 initial_state))).
Proof.
  apply (dubois_stays_with_anaglyph
           [running_env (only HK_TOGGLE_STEREO_ANAGLYPH);
            running_env (only HK_TOGGLE_STEREO_SBS)]
           initial_state).
  unfold dubois_only_with_anaglyph. simpl. discriminate.
Defined.

(** X16: leaving the anaglyph mode for another mode takes its shader
    along: from the anaglyph mode with the Dubois shader, an iteration that
    processes its hotkeys with only the side-by-side, only the
    top-and-bottom or only the 3D Vision action firing ends in that mode
    with no post-processing shader. *)
Theorem leaving_anaglyph_clears_shader (env : Env) (s : State) :
  processing env ->
  stereo_view s = (Anaglyph, DUBOIS_ALGORITHM_SHADER) ->
  (only_asserted env HK_TOGGLE_STEREO_SBS ->
   stereo_view (fst (Run_tick env s)) = (SBS, EmptyString))
  /\ (only_asserted env HK_TOGGLE_STEREO_TAB ->
      stereo_view (fst (Run_tick env s)) = (TAB, EmptyString))
  /\ (only_asserted env HK_TOGGLE_STEREO_3DVISION ->
      stereo_view (fst (Run_tick env s)) = (Nvidia3DVision, EmptyString)).
Proof.
  intros Hp Hs. rewrite (updates_at _ _ _ (Run_tick_stereo env Hp) s), Hs.
  unfold stereo_update, vision3d_update, anaglyph_update, sbs_tab_update.
  repeat split; intro H; eval_keys H; reflexivity.
Qed.

Lemma leaving_anaglyph_clears_shader_witness :
  let env := running_env (only HK_TOGGLE_STEREO_3DVISION) in
  let s := fst (Run_tick (running_env (only HK_TOGGLE_STEREO_ANAGLYPH))
                         initial_state) in
  (only_asserted env HK_TOGGLE_STEREO_SBS ->
   stereo_view (fst (Run_tick env s)) = (SBS, EmptyString))
  /\ (only_asserted env HK_TOGGLE_STEREO_TAB ->
      stereo_view (fst (Run_tick env s)) = (TAB, EmptyString))
  /\ (only_asserted env HK_TOGGLE_STEREO_3DVISION ->
      stereo_view (fst (Run_tick env s)) = (Nvidia3DVision, EmptyString)).
Proof.
  apply (leaving_anaglyph_clears_shader
           (running_env (only HK_TOGGLE_STEREO_3DVISION))
           (fst (Run_tick (running_env (only HK_TOGGLE_STEREO_ANAGLYPH))
                          initial_state))).
  - repeat split; discriminate.
  - vm_compute. reflexivity.
Defined.

(** ** Signals, whatever else fires *)

Lemma produces_when {A : Type} (obs : Effect -> option A) l (c : bool) b :
  produces obs l b -> produces obs (if c then l else []) (when c b).
Proof.
  intro H. destruct c; [exact H |].
  apply produces_silent, silent_skip.
Qed.

Lemma produces_if {A : Type} (obs : Effect -> option A) l1 l2 (c : bool)
  a b :
  produces obs l1 a -> produces obs l2 b ->
  produces obs (if c then l1 else l2) (if c then a else b).
Proof. destruct c; auto. Qed.

Lemma produces_call {A : Type} (obs : Effect -> option A) e :
  produces obs (match obs e with Some a => [a] | None => [] end) (call e).
Proof.
  apply produces_intro. intro s. unfold observe. simpl.
  destruct (obs e); reflexivity.
Qed.

Lemma produces_emit_self sig : produces (signal_is sig) [tt] (emit sig).
Proof.
  apply produces_intro. intro s. unfold observe, emit, call, signal_is.
  simpl. destruct (Signal_eq_dec sig sig); [reflexivity | contradiction].
Qed.

(** Walk a statement for the occurrences of one signal: a statement
    group that cannot emit it is passed over whole. *)
Ltac count_walk :=
  repeat first
    [ eapply produces_seq
    | apply produces_silent; solve [silent_walk fail]
    | apply produces_emit_self
    | eapply produces_when ].

Lemma emitted_of_produces sig l b s :
  produces (signal_is sig) l b -> emitted sig (snd (b s)) = List.length l.
Proof.
  intro H. unfold emitted. rewrite (produces_at _ _ _ H s). reflexivity.
Qed.

(** One line of a table of commands, on an iteration that processes its
    hotkeys. *)
Ltac command_line env Hp s :=
  rewrite (Run_tick_processing env Hp);
  unfold gated_hotkeys, debugging_hotkeys;
  match goal with
  | |- emitted ?sig _ = List.length (once_if ?c) =>
      apply (emitted_of_produces sig (once_if c));
      eapply produces_eq;
      [ count_walk
      | unfold once_if; simpl; rewrite ?app_nil_r; reflexivity ]
  end.

(** X17: each of the fifteen plain command hotkeys (open, eject disc,
    change disc, fullscreen, refresh list, play/pause, stop, reset,
    screenshot, exit, start recording, export recording, read-only mode,
    save to and load from the selected slot) emits its own signal exactly
    once on an iteration that processes its hotkeys and on which it fires,
    and not at all on one on which it does not, whatever other hotkeys
    fire on the same iteration and whatever the state. *)
Theorem plain_command_once_iff_fired (env : Env) (s : State)
  (k : Hotkey) (sig : Signal) :
  processing env ->
  In (k, sig) plain_commands ->
  emitted sig (snd (Run_tick env s))
  = List.length (once_if (IsHotkey env k false)).
Proof.
  intros Hp Hin. unfold plain_commands in Hin. simpl in Hin.
  repeat (destruct Hin as [E | Hin];
          [injection E as <- <-; command_line env Hp s |]).
  contradiction.
Qed.

Lemma plain_command_once_iff_fired_witness :
  let env := running_env (fun k _ =>
               match k with
               | HK_SCREENSHOT | HK_PLAY_PAUSE | HK_TOGGLE_FOG => true
               | _ => false
               end) in
  emitted ScreenShotHotkey (snd (Run_tick env initial_state))
  = List.length (once_if (IsHotkey env HK_SCREENSHOT false)).
Proof.
  apply (plain_command_once_iff_fired
           (running_env (fun k _ =>
               match k with
               | HK_SCREENSHOT | HK_PLAY_PAUSE | HK_TOGGLE_FOG => true
               | _ => false
               end))
           initial_state HK_SCREENSHOT ScreenShotHotkey).
  - repeat split; discriminate.
  - simpl. tauto.
Defined.

(** X18: with debugging enabled, each of the debugging hotkeys step, step
    over, step out, show PC, toggle breakpoint and add breakpoint emits its
    own signal exactly once on an iteration that processes its hotkeys and
    on which it fires, and not at all otherwise, whatever other hotkeys
    fire. *)
Theorem debugging_command_once_iff_fired (env : Env) (s : State)
  (k : Hotkey) (sig : Signal) :
  processing env ->
  bEnableDebugging env = true ->
  In (k, sig) debugging_commands ->
  emitted sig (snd (Run_tick env s))
  = List.length (once_if (IsHotkey env k false)).
Proof.
  intros Hp Hdbg Hin. unfold debugging_commands in Hin. simpl in Hin.
  repeat (destruct Hin as [E | Hin];
          [injection E as <- <-;
           rewrite (Run_tick_processing env Hp);
           unfold gated_hotkeys, debugging_hotkeys; rewrite Hdbg;
           match goal with
           | |- emitted ?sig _ = List.length (once_if ?c) =>
               apply (emitted_of_produces sig (once_if c));
               eapply produces_eq;
               [ count_walk
               | unfold once_if; simpl; rewrite ?app_nil_r; reflexivity ]
           end |]).
  contradiction.
Qed.

Lemma debugging_command_once_iff_fired_witness :
  let env := running_env (fun k _ =>
               match k with
               | HK_STEP_OVER | HK_SKIP | HK_OPEN => true
               | _ => false
               end) in
  emitted StepOver (snd (Run_tick env initial_state))
  = List.length (once_if (IsHotkey env HK_STEP_OVER false)).
Proof.
  apply (debugging_command_once_iff_fired
           (running_env (fun k _ =>
               match k with
               | HK_STEP_OVER | HK_SKIP | HK_OPEN => true
               | _ => false
               end))
           initial_state HK_STEP_OVER StepOver).
  - repeat split; discriminate.
  - reflexivity.
  - simpl. tauto.
Defined.

(** X19: with debugging disabled no debugging signal is emitted: none of
    step, step over, step out, skip, show PC, toggle breakpoint and add
    breakpoint, on any iteration, whatever keys fire. *)
Theorem debugging_off_no_debugging_signal (env : Env) (s : State)
  (sig : Signal) :
  bEnableDebugging env = false ->
  In sig debugging_signals ->
  emitted sig (snd (Run_tick env s)) = 0%nat.
Proof.
  intros Hdbg Hin. unfold debugging_signals in Hin. simpl in Hin.
  unfold emitted.
  rewrite (silent_at (signal_is sig) (Run_tick env)); [reflexivity |].
  destruct (processes env) eqn:Hp.
  - apply processes_spec in Hp. rewrite (Run_tick_processing env Hp).
    unfold gated_hotkeys, debugging_hotkeys. rewrite Hdbg.
    repeat (destruct Hin as [<- | Hin];
            [silent_walk
               ltac:(idtac;
                     match goal with
                     | H : false = true |- _ => discriminate H
                     end) |]).
    contradiction.
  - repeat (destruct Hin as [<- | Hin];
            [apply Run_tick_idle_silent;
             [exact Hp | reflexivity | reflexivity | reflexivity
             | silent_walk fail] |]).
    contradiction.
Qed.

Lemma debugging_off_no_debugging_signal_witness :
  emitted Skip
    (snd (Run_tick
            {| m_stop_requested := false; IsEnabled := true;
               GetState := Running; IsRunningAndStarted := true;
               IsHotkey := fun _ _ => true;
               m_bt_passthrough_enabled := false; bt_device := false;
               bEnableDebugging := false; bWii := true; g_renderer := true;
               EFB_SCALE_AUTO_INTEGRAL := 0 |}
            initial_state)) = 0%nat.
Proof.
  apply (debugging_off_no_debugging_signal
           {| m_stop_requested := false; IsEnabled := true;
              GetState := Running; IsRunningAndStarted := true;
              IsHotkey := fun _ _ => true;
              m_bt_passthrough_enabled := false; bt_device := false;
              bEnableDebugging := false; bWii := true; g_renderer := true;
              EFB_SCALE_AUTO_INTEGRAL := 0 |}
           initial_state Skip).
  - reflexivity.
  - simpl. tauto.
Defined.

(** X20: outside Wii mode no ConnectWiiRemote signal is emitted, on any
    iteration, whatever connect actions are asserted. *)
Theorem no_connect_outside_wii_mode (env : Env) (s : State) :
  bWii env = false ->
  connect_commands (snd (Run_tick env s)) = [].
Proof.
  intro Hw.
  destruct (Run_tick_connect_any env s) as [H | [_ H]]; [exact H |].
  rewrite H, Hw. reflexivity.
Qed.

Lemma no_connect_outside_wii_mode_witness :
  connect_commands
    (snd (Run_tick
            {| m_stop_requested := false; IsEnabled := true;
               GetState := Running; IsRunningAndStarted := true;
               IsHotkey := two_connect_keys;
               m_bt_passthrough_enabled := false; bt_device := false;
               bEnableDebugging := false; bWii := false; g_renderer := true;
               EFB_SCALE_AUTO_INTEGRAL := 0 |}
            initial_state)) = [].
Proof.
  apply (no_connect_outside_wii_mode
           {| m_stop_requested := false; IsEnabled := true;
              GetState := Running; IsRunningAndStarted := true;
              IsHotkey := two_connect_keys;
              m_bt_passthrough_enabled := false; bt_device := false;
              bEnableDebugging := false; bWii := false; g_renderer := true;
              EFB_SCALE_AUTO_INTEGRAL := 0 |}
           initial_state).
  reflexivity.
Defined.

(** ** The statement groups after the lifecycle gate *)

(** On an iteration that reaches them, a kind of call that nothing before
    them makes is made exactly as they make it. *)
Lemma Run_tick_reaching_produces {A : Type} (obs : Effect -> option A) l env :
  reaches_slot_loop env ->
  obs (SleepCurrentThread (1000 / 60)) = None ->
  obs UpdateInput = None -> obs GetStatus = None ->
  silent obs (gated_hotkeys env) ->
  produces obs l (ungated_hotkeys env) ->
  produces obs l (Run_tick env).
Proof.
  intros (He & Hgo) H1 H2 H3 Hg Hu. unfold Run_tick. rewrite He.
  destruct (CoreState_eqb (GetState env) Stopping) eqn:Hs; cbn [negb when].
  - eapply produces_eq.
    + eapply produces_seq;
        [apply produces_silent, silent_call, H1 |].
      eapply produces_seq; [| exact Hu].
      apply produces_silent, silent_when. intros _.
      apply silent_call, H2.
    + reflexivity.
  - assert (Hr : IsRunningAndStarted env = true).
    { destruct Hgo as [Hst | Hr]; [| exact Hr].
      rewrite Hst in Hs. discriminate Hs. }
    rewrite Hr. cbn [when].
    eapply produces_eq.
    + eapply produces_seq;
        [apply produces_silent, silent_call, H1 |].
      eapply produces_seq;
        [apply produces_silent, silent_when; intros _;
         apply silent_call, H2 |].
      eapply produces_seq; [apply produces_silent, silent_call, H3 |].
      eapply produces_seq; [apply produces_silent, Hg | exact Hu].
    + reflexivity.
Qed.

Lemma savestate_slot_counts env a i j :
  produces (signal_is (slot_signal a (Z.of_nat i + 1)))
    (if Nat.eqb j i then once_if (IsHotkey env (slot_hotkey a i) false)
     else [])
    (savestate_slot env j).
Proof.
  eapply produces_eq.
  - unfold savestate_slot.
    repeat first [ eapply produces_seq | eapply produces_when
                 | apply produces_call ].
  - destruct a; cbn [slot_signal slot_hotkey]; unfold signal_is, once_if;
      match goal with
      | |- context [ Signal_eq_dec (?c ?x) (?c ?y) ] =>
          destruct (Signal_eq_dec (c x) (c y)) as [e | n]
      end;
      try (injection e as e; assert (j = i) by lia; subst j;
           rewrite Nat.eqb_refl);
      try (destruct (Nat.eqb_spec j i) as [-> | _];
           [contradiction n; reflexivity |]);
      simpl;
      repeat match goal with
      | |- context [ IsHotkey ?e ?k ?h ] => destruct (IsHotkey e k h)
      end; reflexivity.
Qed.

Lemma savestate_loop_counts env a i n :
  forall first,
  produces (signal_is (slot_signal a (Z.of_nat i + 1)))
    (if ((first <=? i) && (i <? first + n))%nat
     then once_if (IsHotkey env (slot_hotkey a i) false) else [])
    (for_range n first (savestate_slot env)).
Proof.
  induction n as [| n IH]; intro first; cbn [for_range].
  - eapply produces_eq.
    + apply produces_silent, silent_skip.
    + destruct (Nat.leb_spec first i), (Nat.ltb_spec i (first + 0));
        simpl; try reflexivity; lia.
  - eapply produces_eq.
    + apply produces_seq;
        [apply (savestate_slot_counts env a i first) | apply IH].
    + destruct (Nat.eqb_spec first i) as [-> | Hne];
        repeat match goal with
        | |- context [ (?x <=? ?y)%nat ] => destruct (Nat.leb_spec x y)
        | |- context [ (?x <? ?y)%nat ] => destruct (Nat.ltb_spec x y)
        end; simpl; rewrite ?app_nil_r; try reflexivity; lia.
Qed.

(** X21: for every slot index i below the ten slots and each of the four
    slot actions, an iteration that reaches the save-state loop emits the
    signal of that action carrying i + 1 exactly once if the action of
    slot i fires and not at all if it does not, whatever other hotkeys,
    of other slots or of the same slot, fire on the same iteration. *)
Theorem slot_command_once_iff_fired (a : SlotAction) (i : nat) (env : Env)
  (s : State) :
  (i < NUM_STATES)%nat ->
  reaches_slot_loop env ->
  emitted (slot_signal a (Z.of_nat i + 1)) (snd (Run_tick env s))
  = List.length (once_if (IsHotkey env (slot_hotkey a i) false)).
Proof.
  intros Hi Hr.
  apply (emitted_of_produces _ _ (Run_tick env)).
  apply Run_tick_reaching_produces;
    [exact Hr | reflexivity | reflexivity | reflexivity | |].
  - destruct a; silent_walk fail.
  - unfold ungated_hotkeys, savestate_hotkeys. eapply produces_eq.
    + eapply produces_seq;
        [apply produces_silent; destruct a; silent_walk fail |].
      eapply produces_seq;
        [apply produces_silent; destruct a; silent_walk fail |].
      eapply produces_seq;
        [apply produces_silent; destruct a; silent_walk fail |].
      eapply produces_seq;
        [apply (savestate_loop_counts env a i NUM_STATES 0%nat) |].
      apply produces_silent; destruct a; silent_walk fail.
    + simpl. rewrite ?app_nil_r.
      destruct (Nat.ltb_spec i NUM_STATES); [reflexivity | lia].
Qed.

Lemma slot_command_once_iff_fired_witness :
  let env := stopping_env (fun k _ =>
               match k with
               | HK_SAVE_STATE_SLOT_1 7 | HK_LOAD_STATE_SLOT_1 7
               | HK_SAVE_STATE_SLOT_1 0 => true
               | _ => false
               end) in
  emitted (slot_signal SaveSlot (Z.of_nat 7 + 1))
    (snd (Run_tick env initial_state))
  = List.length (once_if (IsHotkey env (slot_hotkey SaveSlot 7) false)).
Proof.
  apply (slot_command_once_iff_fired SaveSlot 7
           (stopping_env (fun k _ =>
               match k with
               | HK_SAVE_STATE_SLOT_1 7 | HK_LOAD_STATE_SLOT_1 7
               | HK_SAVE_STATE_SLOT_1 0 => true
               | _ => false
               end))
           initial_state).
  - unfold NUM_STATES. lia.
  - split; [reflexivity | left; reflexivity].
Defined.

Lemma silent_for_range_below {A : Type} (obs : Effect -> option A)
  (n first : nat) (body : nat -> Block) :
  (forall i, (first <= i < first + n)%nat -> silent obs (body i)) ->
  silent obs (for_range n first body).
Proof.
  revert first. induction n as [| n IH]; intros first H; cbn [for_range].
  - apply silent_skip.
  - apply silent_seq; [apply H; lia |].
    apply IH. intros i Hi. apply H. lia.
Qed.

(** X22: no slot signal ever carries a slot number outside 1..10: for each
    of the four slot actions and every number n below 1 or above the
    number of slots, no iteration emits the signal of that action with n,
    whatever it observes. *)
Theorem slot_number_within_slots (a : SlotAction) (n : Z) (env : Env)
  (s : State) :
  ~ (1 <= n <= Z.of_nat NUM_STATES) ->
  emitted (slot_signal a n) (snd (Run_tick env s)) = 0%nat.
Proof.
  intro Hn. unfold emitted.
  rewrite (silent_at (signal_is (slot_signal a n)) (Run_tick env));
    [reflexivity |].
  assert (Hu : silent (signal_is (slot_signal a n)) (ungated_hotkeys env)).
  { unfold ungated_hotkeys, savestate_hotkeys.
    apply silent_seq; [destruct a; silent_walk fail |].
    apply silent_seq; [destruct a; silent_walk fail |].
    apply silent_seq; [destruct a; silent_walk fail |].
    apply silent_seq; [| destruct a; silent_walk fail].
    apply silent_for_range_below. intros i Hi. unfold savestate_slot.
    destruct a; cbn [slot_signal];
      silent_walk
        ltac:(idtac;
              match goal with
              | |- silent (signal_is (?c n)) (emit (?c _)) =>
                  apply silent_call; unfold signal_is;
                  match goal with
                  | |- context [ Signal_eq_dec ?x ?y ] =>
                      destruct (Signal_eq_dec x y) as [e | _];
                      [injection e as e; lia | reflexivity]
                  end
              end). }
  destruct (processes env) eqn:Hp.
  - apply processes_spec in Hp. rewrite (Run_tick_processing env Hp).
    apply silent_seq; [apply silent_call; reflexivity |].
    apply silent_seq;
      [apply silent_when; intros _; apply silent_call; reflexivity |].
    apply silent_seq; [apply silent_call; reflexivity |].
    apply silent_seq; [destruct a; silent_walk fail | exact Hu].
  - apply Run_tick_idle_silent; try reflexivity; assumption.
Qed.

Lemma slot_number_within_slots_witness :
  emitted (slot_signal LoadSlot 11)
    (snd (Run_tick (running_env (fun _ _ => true)) initial_state)) = 0%nat.
Proof.
  apply (slot_number_within_slots LoadSlot 11
           (running_env (fun _ _ => true)) initial_state).
  unfold NUM_STATES. simpl. lia.
Defined.

(** X23: each of the three save-state hotkeys after the slot loop (save
    oldest, undo load, undo save) emits its own signal exactly once on an
    iteration that reaches the loop and on which it fires, and not at all
    otherwise, whatever other hotkeys fire. *)
Theorem undo_command_once_iff_fired (env : Env) (s : State)
  (k : Hotkey) (sig : Signal) :
  reaches_slot_loop env ->
  In (k, sig) undo_commands ->
  emitted sig (snd (Run_tick env s))
  = List.length (once_if (IsHotkey env k false)).
Proof.
  intros Hr Hin. unfold undo_commands in Hin. simpl in Hin.
  repeat (destruct Hin as [E | Hin];
          [injection E as <- <-;
           match goal with
           | |- emitted ?sig _ = List.length (once_if ?c) =>
               apply (emitted_of_produces sig (once_if c) (Run_tick env));
               apply Run_tick_reaching_produces;
               [ exact Hr | reflexivity | reflexivity | reflexivity
               | silent_walk fail
               | unfold ungated_hotkeys; eapply produces_eq;
                 [ count_walk
                 | unfold once_if; simpl; rewrite ?app_nil_r; reflexivity ] ]
           end |]).
  contradiction.
Qed.

Lemma undo_command_once_iff_fired_witness :
  let env := stopping_env (only HK_UNDO_LOAD_STATE) in
  emitted StateLoadUndo (snd (Run_tick env initial_state))
  = List.length (once_if (IsHotkey env HK_UNDO_LOAD_STATE false)).
Proof.
  apply (undo_command_once_iff_fired
           (stopping_env (only HK_UNDO_LOAD_STATE)) initial_state
           HK_UNDO_LOAD_STATE StateLoadUndo).
  - split; [reflexivity | left; reflexivity].
  - simpl. tauto.
Defined.

(** ** What an iteration does as a whole *)

(** Walk a statement for the calls of one kind, building their list. *)
Ltac obs_walk :=
  repeat first
    [ eapply produces_seq
    | apply produces_silent; solve [silent_walk fail]
    | eapply produces_when
    | eapply produces_if
    | apply produces_call ].

(** X24: the signals of an iteration depend on what it observes only,
    never on the state: an iteration run with the same observations from
    any two states (frame-step statics, free-look speed, configuration)
    emits the same signals in the same order. *)
Theorem signals_do_not_depend_on_state (env : Env) (s s' : State) :
  signals (snd (Run_tick env s)) = signals (snd (Run_tick env s')).
Proof.
  assert (H : exists l, produces signal_of l (Run_tick env)).
  { eexists. unfold Run_tick, gated_hotkeys, ungated_hotkeys. obs_walk. }
  destruct H as [l H]. unfold signals.
  rewrite (produces_at _ _ _ H s), (produces_at _ _ _ H s'). reflexivity.
Qed.

(** X25: an iteration with hotkeys disabled, or with the host neither
    shutting down nor running a started core, leaves the whole state as it
    was and makes no call other than the sleep, the input refresh and the
    status poll: no signal, no frame step, no message, no view change. *)
Theorem idle_iteration_only_polls (env : Env) (s : State) :
  idle env ->
  fst (Run_tick env s) = s
  /\ Forall polling_call (snd (Run_tick env s)).
Proof.
  assert (Hd : IsEnabled env = false ->
               fst (Run_tick env s) = s
               /\ Forall polling_call (snd (Run_tick env s))).
  { intro He. rewrite (Run_tick_disabled env He). split; [reflexivity |].
    apply Forall_cons; [left; reflexivity | apply Forall_nil]. }
  intros [He | [Hs Hr]]; [exact (Hd He) |].
  destruct (IsEnabled env) eqn:He; [| exact (Hd eq_refl)].
  rewrite (Run_tick_not_running env He Hs Hr).
  destruct (CoreState_eqb (GetState env) Uninitialized
            || CoreState_eqb (GetState env) Paused);
    (split; [reflexivity |]);
    repeat (apply Forall_cons;
            [first [ left; reflexivity | right; left; reflexivity
                   | right; right; reflexivity ] |]);
    apply Forall_nil.
Qed.

Lemma idle_iteration_only_polls_witness :
  let env :=
    {| m_stop_requested := false; IsEnabled := true; GetState := Paused;
       IsRunningAndStarted := false; IsHotkey := fun _ _ => true;
       m_bt_passthrough_enabled := true; bt_device := true;
       bEnableDebugging := true; bWii := true; g_renderer := true;
       EFB_SCALE_AUTO_INTEGRAL := 0 |} in
  fst (Run_tick env initial_state) = initial_state
  /\ Forall polling_call (snd (Run_tick env initial_state)).
Proof.
  apply (idle_iteration_only_polls
           {| m_stop_requested := false; IsEnabled := true;
              GetState := Paused;
              IsRunningAndStarted := false; IsHotkey := fun _ _ => true;
              m_bt_passthrough_enabled := true; bt_device := true;
              bEnableDebugging := true; bWii := true; g_renderer := true;
              EFB_SCALE_AUTO_INTEGRAL := 0 |}
           initial_state).
  right. split; [discriminate | reflexivity].
Defined.

(** X26: every iteration sleeps 1000 / 60 = 16 ms first, and sleeps once
    more, for 100 ms, exactly when it processes its hotkeys and the
    fullscreen key fires; it never sleeps otherwise. *)
Theorem sleeps_of_an_iteration (env : Env) (s : State) :
  observe sleep_of (snd (Run_tick env s))
  = 16 :: (if processes env && IsHotkey env HK_FULLSCREEN false
           then [100] else []).
Proof.
  apply (produces_at sleep_of _ (Run_tick env)).
  eapply produces_eq.
  - unfold Run_tick, gated_hotkeys, general_hotkeys. obs_walk.
  - unfold processes.
    destruct (IsEnabled env), (GetState env), (IsRunningAndStarted env),
             (IsHotkey env HK_FULLSCREEN false);
      reflexivity.
Qed.

(** X27: the two keys whose held state is handed on as it is.  An
    iteration that processes its hotkeys tells the core exactly once
    whether the throttle key is held, pressed or not; and it tells the
    emulated Bluetooth device whether the sync key is held exactly once if
    Bluetooth passthrough is enabled and the device is found, and not at
    all otherwise.  An iteration that does not process its hotkeys does
    neither. *)
Theorem held_state_is_forwarded (env : Env) (s : State) :
  observe throttle_of (snd (Run_tick env s))
  = (if processes env then [IsHotkey env HK_TOGGLE_THROTTLE true] else [])
  /\ observe sync_button_of (snd (Run_tick env s))
     = (if processes env && m_bt_passthrough_enabled env && bt_device env
        then [IsHotkey env HK_TRIGGER_SYNC_BUTTON true] else []).
Proof.
  split.
  - apply (produces_at throttle_of _ (Run_tick env)).
    eapply produces_eq.
    + unfold Run_tick, gated_hotkeys, throttle_hotkey. obs_walk.
    + unfold processes.
      destruct (IsEnabled env), (GetState env), (IsRunningAndStarted env);
        reflexivity.
  - apply (produces_at sync_button_of _ (Run_tick env)).
    eapply produces_eq.
    + unfold Run_tick, gated_hotkeys, sync_button. obs_walk.
    + unfold processes.
      destruct (IsEnabled env), (GetState env), (IsRunningAndStarted env),
               (m_bt_passthrough_enabled env), (bt_device env);
        reflexivity.
Qed.

(** X28: with a renderer present, an iteration that processes its hotkeys
    shows one on-screen message for each firing hotkey among volume down,
    up and mute, internal resolution up and down, aspect ratio, EFB copies,
    XFB copies, immediate XFB, fog, and emulation speed down and up, in
    that order, and no other message: the decrease-resolution key is
    announced even at the lowest scale, and no other hotkey is announced. *)
Theorem announcements_of_an_iteration (env : Env) (s : State) :
  processing env ->
  g_renderer env = true ->
  osd_messages (snd (Run_tick env s)) = announcements env.
Proof.
  intros Hp Hr. rewrite (Run_tick_processing env Hp).
  apply (produces_at osd_of _).
  eapply produces_eq.
  - unfold gated_hotkeys, volume_hotkeys, graphics_hotkeys,
      emulation_speed_hotkeys, show_msg.
    rewrite Hr.
    repeat first
      [ eapply produces_seq
      | apply produces_silent; solve [silent_walk fail]
      | eapply produces_when
      | apply produces_call
      | apply produces_intro; intro;
        unfold read; apply produces_at ].
  - unfold announcements, announced_hotkeys. cbn [flat_map fst snd osd_of].
    repeat match goal with
    | |- context [ IsHotkey ?e ?k ?h ] => destruct (IsHotkey e k h)
    end; reflexivity.
Qed.

Lemma announcements_of_an_iteration_witness :
  let env := running_env (fun k _ =>
               match k with
               | HK_DECREASE_IR | HK_TOGGLE_CROP | HK_VOLUME_UP => true
               | _ => false
               end) in
  osd_messages (snd (Run_tick env (Set_.GFX_EFB_SCALE 0 initial_state)))
  = announcements env.
Proof.
  apply (announcements_of_an_iteration
           (running_env (fun k _ =>
               match k with
               | HK_DECREASE_IR | HK_TOGGLE_CROP | HK_VOLUME_UP => true
               | _ => false
               end))
           (Set_.GFX_EFB_SCALE 0 initial_state)).
  - repeat split; discriminate.
  - reflexivity.
Defined.

(** *** Free look *)

Lemma freelook_updates env :
  updates fl_speed (fl_speed_update env) (freelook_hotkeys env).
Proof.
  unfold freelook_hotkeys. eapply updates_eq.
  - eapply updates_seq;
      [apply (updates_intro fl_speed
                (fun v => if IsHotkey env HK_FREELOOK_DECREASE_SPEED true
                          then FlDiv v else v));
       intros [ ];
       destruct (IsHotkey env HK_FREELOOK_DECREASE_SPEED true);
       reflexivity |].
    eapply updates_seq;
      [apply (updates_intro fl_speed
                (fun v => if IsHotkey env HK_FREELOOK_INCREASE_SPEED true
                          then FlMul v else v));
       intros [ ];
       destruct (IsHotkey env HK_FREELOOK_INCREASE_SPEED true);
       reflexivity |].
    eapply updates_seq;
      [apply (updates_intro fl_speed
                (fun v => if IsHotkey env HK_FREELOOK_RESET_SPEED true
                          then FlOne else v));
       intros [ ];
       destruct (IsHotkey env HK_FREELOOK_RESET_SPEED true);
       reflexivity |].
    apply updates_keeps. keeps_walk fail.
  - intro v. reflexivity.
Qed.

(** X29: the free-look speed keys act in the order decrease, increase,
    reset, so the reset key wins: on an iteration that reaches the
    statement groups after the lifecycle gate with the reset-speed key
    held, the free-look speed is 1.0 afterwards, whatever it was and
    whether or not the other two speed keys are held as well. *)
Theorem freelook_reset_speed_wins (env : Env) (s : State) :
  reaches_slot_loop env ->
  IsHotkey env HK_FREELOOK_RESET_SPEED true = true ->
  fl_speed (fst (Run_tick env s)) = FlOne.
Proof.
  intros (He & Hgo) Hk.
  assert (Hu : updates fl_speed (fl_speed_update env) (ungated_hotkeys env)).
  { unfold ungated_hotkeys. eapply updates_eq.
    - updates_walk
        ltac:(idtac;
              match goal with
              | |- updates _ _ (freelook_hotkeys _) => apply freelook_updates
              end).
    - intro v. reflexivity. }
  assert (Hg : keeps fl_speed (gated_hotkeys env)) by keeps_walk fail.
  assert (Hall : fl_speed (fst (Run_tick env s))
                 = fl_speed_update env (fl_speed s)).
  { unfold Run_tick. rewrite He.
    destruct (CoreState_eqb (GetState env) Stopping) eqn:Hs;
      cbn [negb when].
    - rewrite !fst_seq. rewrite (updates_at _ _ _ Hu).
      destruct (CoreState_eqb (GetState env) Uninitialized
                || CoreState_eqb (GetState env) Paused); reflexivity.
    - assert (Hr : IsRunningAndStarted env = true).
      { destruct Hgo as [Hst | Hr]; [| exact Hr].
        rewrite Hst in Hs. discriminate Hs. }
      rewrite Hr. cbn [when]. rewrite !fst_seq.
      rewrite (updates_at _ _ _ Hu), (keeps_at _ _ Hg).
      destruct (CoreState_eqb (GetState env) Uninitialized
                || CoreState_eqb (GetState env) Paused); reflexivity. }
  rewrite Hall. unfold fl_speed_update. rewrite Hk. reflexivity.
Qed.

Lemma freelook_reset_speed_wins_witness :
  fl_speed
    (fst (Run_tick
            (running_env (fun k _ =>
               match k with
               | HK_FREELOOK_RESET_SPEED | HK_FREELOOK_INCREASE_SPEED => true
               | _ => false
               end))
            (Set_.fl_speed (FlMul (FlMul FlOne)) initial_state)))
  = FlOne.
Proof.
  apply (freelook_reset_speed_wins
           (running_env (fun k _ =>
               match k with
               | HK_FREELOOK_RESET_SPEED | HK_FREELOOK_INCREASE_SPEED => true
               | _ => false
               end))
           (Set_.fl_speed (FlMul (FlMul FlOne)) initial_state)).
  - split; [reflexivity | right; reflexivity].
  - reflexivity.
Defined.
